(** * The context composer of [bot/prompts_idss.py]

    A shallow embedding of [create_trading_prompt] and of the helpers nested
    in it ([fmt], [describe_freshness], [summarize_news_sentiment]), with the
    properties the specification states about them.

    Modelling conventions.
    - Python [str] is [string] (a byte string; case mapping and whitespace
      are the ASCII ones).
    - Python [int] is [Z].  A Python [float] is the rational it denotes, in
      [Q]; [nan], the infinities and the sign of zero are not modelled.  The
      mean of the sentiment scores, which the code compares with
      thresholds, is rounded as binary64 arithmetic rounds it
      ([Num.binary64]); the products that make a score (a weight 1.0, -1.0
      or 0.0 times a float) are exact in binary64; the arithmetic of the
      position block and [total_seconds()] are taken as exact.
    - A [datetime] is a count of microseconds since the epoch, unbounded:
      the [OverflowError] of a conversion that leaves the years 1 to 9999 is
      not modelled.
    - A news entry is read with [.get] only, so it is a dictionary
      (association list) of dynamically typed values; the market snapshots,
      the state and the positions are indexed with [[...]], so they are
      records whose required keys are fields.
    - A Python exception is a [Raise] in the [result] monad.
    - What the function reads besides its two arguments (clock, news cache,
      [config], system time zone) is the [World]; what it calls from the
      Python runtime and cannot be written over [Q] is the [Runtime], whose
      functions depend on their arguments only. *)

From Stdlib Require Import String Ascii List ZArith QArith Qabs Qpower Lia Lqa Bool
  DecimalString.
From Stdlib Require PrimFloat SpecFloat FloatOps.
From Stdlib Require Import Permutation.
Import ListNotations.
Local Open Scope string_scope.
Local Open Scope Z_scope.

(** ** Exceptions *)

Inductive exn : Set := TypeError | AttributeError | KeyError.

Inductive result (A : Type) : Type :=
| Ok (a : A)
| Raise (e : exn).
Arguments Ok {A} a.
Arguments Raise {A} e.

Definition bind {A B : Type} (c : result A) (k : A -> result B) : result B :=
  match c with
  | Ok a => k a
  | Raise e => Raise e
  end.

Notation "x <- c ;; k" := (bind c (fun x => k))
  (at level 61, c at next level, right associativity).
Notation "' p <- c ;; k" := (bind c (fun p => k))
  (at level 61, p pattern, c at next level, right associativity).

(** ** Strings: the [str] methods the module calls *)

Module Str.

(** [sep.join(ls)] *)
Definition join (sep : string) (ls : list string) : string :=
  String.concat sep ls.

(** [str(n)] for an [int] *)
Definition of_int (n : Z) : string := NilZero.string_of_int (Z.to_int n).

(** [c * n] for a one-character string *)
Fixpoint repeat (c : ascii) (n : nat) : string :=
  match n with
  | O => ""
  | S n' => String c (repeat c n')
  end.

(** [s.replace(c, by)] where [c] is a single character *)
Fixpoint replace (c : ascii) (by_ : string) (s : string) : string :=
  match s with
  | EmptyString => EmptyString
  | String a s' =>
      if Ascii.eqb a c then by_ ++ replace c by_ s'
      else String a (replace c by_ s')
  end.

Definition is_space (a : ascii) : bool :=
  let n := N_of_ascii a in
  (((9 <=? n) && (n <=? 13)) || ((28 <=? n) && (n <=? 32)))%N.

Fixpoint lstrip (s : string) : string :=
  match s with
  | EmptyString => EmptyString
  | String a s' => if is_space a then lstrip s' else s
  end.

Fixpoint rstrip (s : string) : string :=
  match s with
  | EmptyString => EmptyString
  | String a s' =>
      match rstrip s' with
      | EmptyString => if is_space a then EmptyString else String a EmptyString
      | r => String a r
      end
  end.

(** [s.strip()] *)
Definition strip (s : string) : string := rstrip (lstrip s).

Definition lower_ascii (a : ascii) : ascii :=
  let n := N_of_ascii a in
  if ((65 <=? n) && (n <=? 90))%N then ascii_of_N (n + 32) else a.

Definition upper_ascii (a : ascii) : ascii :=
  let n := N_of_ascii a in
  if ((97 <=? n) && (n <=? 122))%N then ascii_of_N (n - 32) else a.

Fixpoint map (f : ascii -> ascii) (s : string) : string :=
  match s with
  | EmptyString => EmptyString
  | String a s' => String (f a) (map f s')
  end.

(** [s.lower()], [s.upper()] *)
Definition lower : string -> string := map lower_ascii.
Definition upper : string -> string := map upper_ascii.

(** [a > b] on strings: lexicographic on the characters *)
Definition gtb (a b : string) : bool :=
  match String.compare a b with
  | Gt => true
  | _ => false
  end.

End Str.

(** ** Numbers: fixed-point formatting of a float, [f"{x:.Nf}"] and [f"{x:+.Nf}"] *)

Module Num.

(** Round to the nearest integer, ties to even. *)
Definition round_half_even (q : Q) : Z :=
  let n := Qnum q in
  let d := Zpos (Qden q) in
  let fl := n / d in
  let r2 := 2 * (n mod d) in
  if r2 <? d then fl
  else if d <? r2 then fl + 1
  else if Z.even fl then fl else fl + 1.

(** [s.rjust(width, "0")] *)
Definition pad_left (width : nat) (s : string) : string :=
  Str.repeat "0" (width - String.length s) ++ s.

(** [format(x, ".Nf")], or [format(x, "+.Nf")] when [plus] is set. *)
Definition format_fixed (plus : bool) (digits : nat) (x : Q) : string :=
  let scale := 10 ^ Z.of_nat digits in
  let m := round_half_even (Qabs x * inject_Z scale)%Q in
  let sign := if Qlt_le_dec x 0 then "-" else if plus then "+" else "" in
  let int_part := Str.of_int (m / scale) in
  match digits with
  | O => sign ++ int_part
  | _ => sign ++ int_part ++ "." ++ pad_left digits (Str.of_int (m mod scale))
  end.

Fixpoint sum (l : list Q) : Q :=
  match l with
  | [] => 0
  | x :: l' => x + sum l'
  end%Q.

(** *** Binary64 rounding

    A float is the rational it denotes.  [binary64 q] is the float nearest
    to [q], ties to the even significand: 53 significant bits, exponents
    from -1074 up.  Overflow to an infinity is not modelled. *)

(** [2.0 ** e] *)
Definition pow2 (e : Z) : Q := (2 ^ e)%Q.

(** The floor of the binary logarithm of [q > 0] *)
Definition ilog2 (q : Q) : Z :=
  let k := Z.log2 (Qnum q) - Z.log2 (Zpos (Qden q)) in
  if Qle_bool (pow2 k) q then k else k - 1.

(** The exponent of the unit in the last place of the floats next to [q] *)
Definition exponent (q : Q) : Z := Z.max (-1074) (ilog2 (Qabs q) - 52).

Definition nearest (q : Q) : Q :=
  let e := exponent q in
  (inject_Z (round_half_even (q / pow2 e)) * pow2 e)%Q.

Definition binary64 (q : Q) : Q := Qred (nearest (Qred q)).

(** [statistics.fmean(l)] on a non-empty list, [fsum(l) / n]: the exact sum
    rounded once ([math.fsum]), then the float division by the count. *)
Definition fmean (l : list Q) : Q :=
  binary64 (binary64 (sum l) / binary64 (inject_Z (Z.of_nat (List.length l)))).

End Num.

(** ** Dynamically typed values and dictionaries *)

Inductive value : Type :=
| VNone
| VStr (s : string)
| VNum (q : Q).

(** Truth value of an object, as [if v:], [not v] and [or] test it. *)
Definition truthy (v : value) : bool :=
  match v with
  | VNone => false
  | VStr s => negb (s =? "")%string
  | VNum q => negb (Qeq_bool q 0)
  end.

(** [a or b] *)
Definition py_or (a b : value) : value := if truthy a then a else b.

Definition dict : Type := list (string * value).

Fixpoint lookup {A : Type} (k : string) (d : list (string * A)) : option A :=
  match d with
  | [] => None
  | (k', v) :: d' => if (k' =? k)%string then Some v else lookup k d'
  end.

(** [d.get(k)] and [d.get(k, default)] *)
Definition get (k : string) (d : dict) : value :=
  match lookup k d with
  | Some v => v
  | None => VNone
  end.

Definition get_default (k : string) (default : value) (d : dict) : value :=
  match lookup k d with
  | Some v => v
  | None => default
  end.

(** A dictionary is true when it has a key. *)
Definition dict_truthy (d : dict) : bool :=
  match d with
  | [] => false
  | _ :: _ => true
  end.

(** ** The Python runtime *)

(** What [datetime.fromisoformat] returns: the wall-clock fields as
    microseconds since the epoch, and the UTC offset (microseconds) when the
    string carries one ([tzinfo is None] otherwise). *)
Record datetime : Set := {
  wall : Z;
  utcoffset : option Z
}.

Record Runtime : Type := {
  (** [datetime.fromisoformat(s)]; [None] stands for [ValueError] *)
  fromisoformat : string -> option datetime;
  (** [dt.isoformat()] of the aware UTC datetime at an instant *)
  isoformat : Z -> string;
  (** [dt.strftime("%Y-%m-%d %H:%M:%S %Z")] of the aware UTC datetime at an
      instant *)
  strftime_utc : Z -> string;
  (** [repr(x)] of a float, which is also what [json.dumps] and [str] write *)
  float_repr : Q -> string;
  (** [json.dumps(s)] of a string: quoted and escaped *)
  json_str : string -> string
}.

(** ** JSON documents, as [json.dumps] writes them with its default separators *)

Local Unset Elimination Schemes.
Inductive json : Type :=
| JInt (n : Z)
| JFloat (x : Q)
| JString (s : string)
| JArray (items : list json)
| JObject (members : list (string * json)).
Local Set Elimination Schemes.

(** ** The data the composer reads *)

(** [data["intraday_series"]]: six series, oldest first. *)
Record IntradaySeries : Type := {
  i_mid_prices : list Q;
  i_ema20 : list Q;
  i_macd : list Q;
  i_rsi7 : list Q;
  i_rsi14 : list Q;
  i_vwap : list Q
}.

(** [data["long_term"]] *)
Record LongTerm : Type := {
  lt_ema20 : option Q;
  lt_ema50 : option Q;
  lt_atr3 : option Q;
  lt_atr14 : option Q;
  lt_current_volume : option Q;
  lt_average_volume : option Q;
  lt_macd : list Q;
  lt_rsi14 : list Q;
  lt_vwap : list Q
}.

(** One value of [market_snapshots].  The four indicators go through [fmt],
    whose argument is [Optional[float]]: [None] is Python's [None]. *)
Record MarketSnapshot : Type := {
  price : option Q;
  ema20 : option Q;
  macd : option Q;
  rsi7 : option Q;
  intraday_series : IntradaySeries;
  long_term : LongTerm
}.

(** One value of [state["positions"]]; the three keys read with [.get] are
    optional. *)
Record Position : Type := {
  side : string;
  quantity : Q;
  entry_price : Q;
  profit_target : Q;
  stop_loss : Q;
  invalidation_condition : string;
  confidence : Q;
  risk_idr : option Q;
  risk_usd : option Q;
  fees_paid : option Q
}.

(** The [state] argument. *)
Record TradingState : Type := {
  start_time : Z;
  invocation_count : Z;
  total_return_pct : option Q;
  sharpe_ratio : option Q;
  total_balance : option Q;
  net_unrealized_pnl : option Q;
  total_equity : option Q;
  total_fees_paid : option Q;
  positions : list (string * Position)
}.

(** The [config] module, as far as the composer reads it. *)
Record Config : Type := {
  SYMBOLS : list string;
  SYMBOL_TO_COIN : list (string * string);
  CHECK_INTERVAL : Z;
  TRADING_FEE_RATE : Q
}.

(** What one invocation reads that is not an argument: the clock
    ([datetime.now(timezone.utc)]), the [news_cache] module, [config], and
    the system time zone, which [astimezone] applies to a naive datetime:
    its UTC offset (microseconds) at a local wall-clock time. *)
Record World : Type := {
  clock : Z;
  get_last_refresh_time : option string;
  get_cached_news : string -> Z -> list dict;
  config : Config;
  local_utcoffset : Z -> Z
}.

(** ** The composer *)

Definition newline : string := String (ascii_of_nat 10) EmptyString.
Definition char_newline : ascii := ascii_of_nat 10.
Definition char_Z : ascii := "Z"%char.
Definition char_dash : ascii := "-"%char.

(** [lines +++ more]: the list [lines] extended with [more]. *)
Infix "+++" := (@List.app string) (at level 60, right associativity).

Section Composer.

Variable py : Runtime.

(** [str(v)], which is also how an f-string writes [v] *)
Definition py_str (v : value) : string :=
  match v with
  | VNone => "None"
  | VStr s => s
  | VNum q => float_repr py q
  end.

(** [json.dumps(j)] *)
Fixpoint json_dumps (j : json) : string :=
  match j with
  | JInt n => Str.of_int n
  | JFloat x => float_repr py x
  | JString s => json_str py s
  | JArray items => "[" ++ Str.join ", " (List.map json_dumps items) ++ "]"
  | JObject members =>
      "{"
      ++ Str.join ", "
           (List.map (fun '(k, v) => json_str py k ++ ": " ++ json_dumps v) members)
      ++ "}"
  end.

(** [json.dumps] of a list of floats *)
Definition dumps_series (series : list Q) : string :=
  json_dumps (JArray (List.map JFloat series)).

(** [fmt], lines 398-401 *)
Definition fmt (v : option Q) (digits : nat) : string :=
  match v with
  | None => "N/A"
  | Some x => Num.format_fixed false digits x
  end.

(** *** [describe_freshness], lines 421-471 *)

(** [f"{n} {unit}{'s' if n != 1 else ''} ago"] *)
Definition count_ago (n : Z) (unit : string) : string :=
  Str.of_int n ++ " " ++ unit ++ (if n =? 1 then "" else "s") ++ " ago".

(** Lines 447-471: the phrase for a whole number of seconds. *)
Definition freshness_phrase (seconds : Z) : string :=
  if seconds <? 60 then "just now"
  else
    let minutes := seconds / 60 in
    if minutes <? 60 then count_ago minutes "minute"
    else
      let hours := minutes / 60 in
      if hours <? 24 then count_ago hours "hour"
      else
        let days := hours / 24 in
        if days <? 7 then count_ago days "day"
        else
          let weeks := days / 7 in
          if weeks <? 5 then count_ago weeks "week"
          else
            let months := days / 30 in
            if months <? 12 then count_ago months "month"
            else
              let years := days / 365 in
              count_ago years "year".

(** The instant of a parsed timestamp: a naive one is taken as UTC
    (lines 438-440). *)
Definition instant (dt : datetime) : Z :=
  match utcoffset dt with
  | None => wall dt
  | Some offset => wall dt - offset
  end.

(** [int(diff.total_seconds())] after the clamp of lines 442-446 *)
Definition age_seconds (now : Z) (published_dt : datetime) : Z :=
  let diff := now - instant published_dt in
  let diff := if diff <? 0 then 0 else diff in
  diff / 1000000.

Definition describe_freshness (now : Z) (entry : dict) : value :=
  let published_candidate := py_or (get "published_at" entry) (get "date" entry) in
  let raw_candidate := get "raw_date" entry in
  if negb (truthy published_candidate) then raw_candidate
  else
    let iso_candidate := Str.strip (py_str published_candidate) in
    if (iso_candidate =? "")%string then raw_candidate
    else
      let iso_candidate := Str.replace char_Z "+00:00" iso_candidate in
      match fromisoformat py iso_candidate with
      | None => py_or raw_candidate (VStr iso_candidate)
      | Some published_dt => VStr (freshness_phrase (age_seconds now published_dt))
      end.

(** *** [summarize_news_sentiment], lines 473-535 *)

Definition sentiment_weights : list (string * Q) :=
  [("positive", 1%Q); ("negative", (-1)%Q); ("neutral", 0%Q)].

(** The [counts] dictionary: its four keys are fixed. *)
Record Counts : Set := {
  positive : Z;
  negative : Z;
  neutral : Z;
  unknown : Z
}.

(** [counts[k] += 1] *)
Definition increment (k : string) (c : Counts) : Counts :=
  if (k =? "positive")%string then
    {| positive := positive c + 1; negative := negative c;
       neutral := neutral c; unknown := unknown c |}
  else if (k =? "negative")%string then
    {| positive := positive c; negative := negative c + 1;
       neutral := neutral c; unknown := unknown c |}
  else if (k =? "neutral")%string then
    {| positive := positive c; negative := negative c;
       neutral := neutral c + 1; unknown := unknown c |}
  else
    {| positive := positive c; negative := negative c;
       neutral := neutral c; unknown := unknown c + 1 |}.

(** [v.lower()] and [v.upper()]: only a string has the method. *)
Definition method_lower (v : value) : result string :=
  match v with
  | VStr s => Ok (Str.lower s)
  | _ => Raise AttributeError
  end.

Definition method_upper (v : value) : result string :=
  match v with
  | VStr s => Ok (Str.upper s)
  | _ => Raise AttributeError
  end.

(** [a > b]: defined between two strings and between two numbers. *)
Definition py_gt (a b : value) : result bool :=
  match a, b with
  | VStr x, VStr y => Ok (Str.gtb x y)
  | VNum x, VNum y => Ok (if Qlt_le_dec y x then true else false)
  | _, _ => Raise TypeError
  end.

(** [entry.get("published_at") or entry.get("date") or ""] *)
Definition timestamp_of (entry : dict) : value :=
  py_or (py_or (get "published_at" entry) (get "date" entry)) (VStr "").

(** [(entry.get("sentiment") or "unknown")] *)
Definition sentiment_of (entry : dict) : value :=
  py_or (get "sentiment" entry) (VStr "unknown").

(** The loop's variables.  The key entry is kept with its position in
    [entries]: the caller compares it by identity ([is]), and the entries
    of one list are distinct objects. *)
Record LoopState : Type := {
  counts : Counts;
  weighted_scores : list Q;
  key_entry : option (nat * dict)
}.

(** [if key_entry:] *)
Definition key_truthy (k : option (nat * dict)) : bool :=
  match k with
  | Some (_, e) => dict_truthy e
  | None => false
  end.

(** Lines 487-496; the product of a weight and a float is exact. *)
Definition tally (entry : dict) (sent : string) (st : LoopState)
  : Counts * list Q :=
  match lookup sent sentiment_weights with
  | None => (increment "unknown" (counts st), weighted_scores st)
  | Some weight =>
      (increment sent (counts st),
       match get "sentiment_confidence" entry with
       | VNum confidence => (weighted_scores st ++ [(weight * confidence)%Q])%list
       | _ => (weighted_scores st ++ [weight])%list
       end)
  end.

(** Lines 498-505 *)
Definition select_key (i : nat) (entry : dict) (key : option (nat * dict))
  : result (option (nat * dict)) :=
  match key with
  | Some (j, old) =>
      if dict_truthy old then
        let ts_new := timestamp_of entry in
        let ts_old := timestamp_of old in
        if truthy ts_new then
          newer <- py_gt ts_new ts_old ;;
          Ok (if newer : bool then Some (i, entry) else Some (j, old))
        else Ok (Some (j, old))
      else Ok (Some (i, entry))
  | None => Ok (Some (i, entry))
  end.

Definition loop_body (i : nat) (entry : dict) (st : LoopState)
  : result LoopState :=
  sent <- method_lower (sentiment_of entry) ;;
  let '(counts', scores') := tally entry sent st in
  key' <- select_key i entry (key_entry st) ;;
  Ok {| counts := counts'; weighted_scores := scores'; key_entry := key' |}.

Fixpoint loop (i : nat) (entries : list dict) (st : LoopState)
  : result LoopState :=
  match entries with
  | [] => Ok st
  | entry :: rest => st' <- loop_body i entry st ;; loop (S i) rest st'
  end.

Definition loop_init : LoopState :=
  {| counts := {| positive := 0; negative := 0; neutral := 0; unknown := 0 |};
     weighted_scores := [];
     key_entry := None |}.

(** Line 507 *)
Definition net_score_of (scores : list Q) : Q :=
  match scores with
  | [] => 0%Q
  | _ :: _ => Num.fmean scores
  end.

(** Lines 508-513; [0.2] is the float nearest to 1/5. *)
Definition bias_of (net_score : Q) : string :=
  if Qle_bool (Num.binary64 0.2) net_score then "Bullish tilt"
  else if Qle_bool net_score (- Num.binary64 0.2) then "Bearish tilt"
  else "Mixed/neutral bias".

(** [(entry.get("summary") or entry.get("snippet") or entry.get("title", ""))
    .replace("\n", " ").strip()] *)
Definition headline_text (entry : dict) : result string :=
  match py_or (py_or (get "summary" entry) (get "snippet" entry))
              (get_default "title" (VStr "") entry) with
  | VStr s => Ok (Str.strip (Str.replace char_newline " " s))
  | _ => Raise AttributeError
  end.

(** Lines 515-518 *)
Definition summary_line_of (c : Counts) (net_score : Q) : string :=
  bias_of net_score ++ ": +" ++ Str.of_int (positive c)
  ++ " / -" ++ Str.of_int (negative c)
  ++ " / =" ++ Str.of_int (neutral c)
  ++ " (net score " ++ Num.format_fixed true 2 net_score ++ ").".

(** Lines 520-533 *)
Definition key_line_of (now : Z) (key : option (nat * dict)) : result string :=
  match key with
  | Some (_, k) =>
      if dict_truthy k then
        key_summary <- headline_text k ;;
        key_sentiment <- method_upper (sentiment_of k) ;;
        let freshness := describe_freshness now k in
        let key_line := "Key headline [" ++ key_sentiment ++ "] " ++ key_summary in
        Ok (if truthy freshness
            then key_line ++ " (published " ++ py_str freshness ++ ")"
            else key_line)
      else Ok ""
  | None => Ok ""
  end.

Definition summarize_news_sentiment (now : Z) (entries : list dict)
  : result (option (string * string * option (nat * dict))) :=
  match entries with
  | [] => Ok None
  | _ :: _ =>
      st <- loop 0 entries loop_init ;;
      let net_score := net_score_of (weighted_scores st) in
      let summary_line := summary_line_of (counts st) net_score in
      key_line <- key_line_of now (key_entry st) ;;
      Ok (Some (summary_line, key_line,
                if key_truthy (key_entry st) then key_entry st else None))
  end.

(** *** The market blocks, lines 537-602 *)

Variable w : World.
Variable state : TradingState.
Variable market_snapshots : list (string * MarketSnapshot).

(** ["-" * 80] *)
Definition separator : string := Str.repeat char_dash 80.

(** [int(config.CHECK_INTERVAL / 60)] *)
Definition interval_minutes : Z := Z.quot (CHECK_INTERVAL (config w)) 60.

(** Lines 551-556 *)
Definition intraday_series_lines (intraday : IntradaySeries) : list string :=
  [ "    mid_prices: " ++ dumps_series (i_mid_prices intraday);
    "    ema20: " ++ dumps_series (i_ema20 intraday);
    "    macd: " ++ dumps_series (i_macd intraday);
    "    rsi7: " ++ dumps_series (i_rsi7 intraday);
    "    rsi14: " ++ dumps_series (i_rsi14 intraday);
    "    vwap: " ++ dumps_series (i_vwap intraday) ].

(** Lines 557-564 *)
Definition long_term_lines (lt : LongTerm) : list string :=
  [ "  Longer-term context (1-hour timeframe):";
    "    EMA20 vs EMA50: " ++ fmt (lt_ema20 lt) 3 ++ " / " ++ fmt (lt_ema50 lt) 3;
    "    ATR3 vs ATR14: " ++ fmt (lt_atr3 lt) 3 ++ " / " ++ fmt (lt_atr14 lt) 3;
    "    Volume (current/average): " ++ fmt (lt_current_volume lt) 3
      ++ " / " ++ fmt (lt_average_volume lt) 3;
    "    MACD series: " ++ dumps_series (lt_macd lt);
    "    RSI14 series: " ++ dumps_series (lt_rsi14 lt);
    "    VWAP series: " ++ dumps_series (lt_vwap lt);
    separator ].

(** Lines 546-566 *)
Definition snapshot_lines (coin : string) (data : MarketSnapshot) : list string :=
  [ coin ++ " STOCK SNAPSHOT";
    "- Price: " ++ fmt (price data) 3 ++ ", EMA20: " ++ fmt (ema20 data) 3
      ++ ", MACD: " ++ fmt (macd data) 3 ++ ", RSI(7): " ++ fmt (rsi7 data) 3;
    "  Intraday series (" ++ Str.of_int interval_minutes
      ++ "-minute, oldest → latest):" ]
  +++ intraday_series_lines (intraday_series data)
  +++ long_term_lines (long_term data).

(** Lines 583-600: the line of one headline *)
Definition headline_line (entry : dict) : result string :=
  summary <- headline_text entry ;;
  sentiment <- method_upper (sentiment_of entry) ;;
  let sentiment :=
    match get "sentiment_confidence" entry with
    | VNum confidence =>
        sentiment ++ " (confidence " ++ Num.format_fixed false 2 confidence ++ ")"
    | _ => sentiment
    end in
  let source := py_str (get "source" entry) in
  let freshness := describe_freshness (clock w) entry in
  Ok (if truthy freshness
      then "    - [" ++ sentiment ++ "] " ++ summary ++ " — " ++ source
           ++ " (published " ++ py_str freshness ++ ")"
      else "    - [" ++ sentiment ++ "] " ++ summary ++ " — " ++ source).

(** Lines 580-600: every headline but the key one, which is recognised by
    identity, that is by its position in the list. *)
Fixpoint headline_lines (key : option nat) (i : nat) (entries : list dict)
  : result (list string) :=
  match entries with
  | [] => Ok []
  | entry :: rest =>
      let is_key := match key with Some j => Nat.eqb i j | None => false end in
      if is_key then headline_lines key (S i) rest
      else
        line <- headline_line entry ;;
        lines <- headline_lines key (S i) rest ;;
        Ok (line :: lines)
  end.

(** Lines 568-600 *)
Definition news_lines (news_entries : list dict) : result (list string) :=
  match news_entries with
  | [] => Ok []
  | _ :: _ =>
      sentiment_summary <- summarize_news_sentiment (clock w) news_entries ;;
      let '(summary_lines, key_entry_for_summary) :=
        match sentiment_summary with
        | Some (summary_line, key_line, key) =>
            (["    - " ++ summary_line]
             +++ (if (key_line =? "")%string then [] else ["    - " ++ key_line]),
             key)
        | None => ([], None)
        end in
      headlines <- headline_lines (option_map fst key_entry_for_summary) 0 news_entries ;;
      Ok (["  Recent news sentiment:"] +++ summary_lines +++ headlines)
  end.

(** The body of the loop of line 537, for one symbol. *)
Definition market_block (symbol : string) : result (list string) :=
  match lookup symbol (SYMBOL_TO_COIN (config w)) with
  | None => Raise KeyError
  | Some coin =>
      match lookup coin market_snapshots with
      | None => Ok []
      | Some data =>
          news <- news_lines (get_cached_news w coin 5) ;;
          Ok (snapshot_lines coin data +++ news +++ [separator])
      end
  end.

Fixpoint market_blocks (symbols : list string) : result (list string) :=
  match symbols with
  | [] => Ok []
  | symbol :: rest =>
      block <- market_block symbol ;;
      blocks <- market_blocks rest ;;
      Ok (block +++ blocks)
  end.

(** *** The account and position block, lines 604-651 *)

Definition account_lines : list string :=
  [ "## HERE IS YOUR ACCOUNT INFORMATION & PERFORMANCE";
    "**Performance Metrics:**";
    "- Total Return (%): " ++ fmt (total_return_pct state) 2;
    "- Sharpe Ratio: " ++ fmt (sharpe_ratio state) 2;
    "**Account Status:**";
    "- Available Cash: " ++ fmt (total_balance state) 2;
    "- Unrealized PnL: " ++ fmt (net_unrealized_pnl state) 2;
    "- Current Account Value: " ++ fmt (total_equity state) 2;
    "- Total Fees Paid (lifetime): " ++ fmt (total_fees_paid state) 2;
    "- Fee Rate Applied (per side): "
      ++ Num.format_fixed false 3 (TRADING_FEE_RATE (config w) * 100)%Q ++ "%";
    "Open positions and their performance details:" ].

(** [market_snapshots.get(coin, {}).get("price", pos["entry_price"])]: the
    entry price when the mapping has no snapshot for the coin, the
    snapshot's price (possibly [None]) otherwise. *)
Definition current_price (coin : string) (pos : Position) : option Q :=
  match lookup coin market_snapshots with
  | None => Some (entry_price pos)
  | Some data => price data
  end.

(** Lines 627-631; arithmetic on [None] raises [TypeError]. *)
Definition unrealized_pnl (current : option Q) (pos : Position) : result Q :=
  match current with
  | None => Raise TypeError
  | Some current_price =>
      Ok (if (side pos =? "long")%string
          then (current_price - entry_price pos) * quantity pos
          else (entry_price pos - current_price) * quantity pos)%Q
  end.

Definition position_pnl (coin : string) (pos : Position) : result Q :=
  unrealized_pnl (current_price coin pos) pos.

(** Lines 633-650 *)
Definition position_payload (coin : string) (pos : Position)
                            (current_price pnl : Q) : json :=
  JObject
    [ ("symbol", JString coin);
      ("side", JString (side pos));
      ("quantity", JFloat (quantity pos));
      ("entry_price", JFloat (entry_price pos));
      ("current_price", JFloat current_price);
      ("unrealized_pnl", JFloat pnl);
      ("leverage", JInt 1);
      ("exit_plan",
        JObject
          [ ("profit_target", JFloat (profit_target pos));
            ("stop_loss", JFloat (stop_loss pos));
            ("invalidation_condition", JString (invalidation_condition pos)) ]);
      ("confidence", JFloat (confidence pos));
      ("risk_idr",
        JFloat match risk_idr pos with
               | Some r => r
               | None => match risk_usd pos with Some r => r | None => 0%Q end
               end);
      ("notional_idr", JFloat (quantity pos * current_price)%Q);
      ("fees_paid",
        JFloat match fees_paid pos with Some f => f | None => 0%Q end) ].

Definition position_line (coin : string) (pos : Position) : result string :=
  pnl <- position_pnl coin pos ;;
  match current_price coin pos with
  | None => Raise TypeError
  | Some current =>
      Ok (coin ++ " position data: "
          ++ json_dumps (position_payload coin pos current pnl))
  end.

Fixpoint position_lines (items : list (string * Position)) : result (list string) :=
  match items with
  | [] => Ok []
  | (coin, pos) :: rest =>
      line <- position_line coin pos ;;
      lines <- position_lines rest ;;
      Ok (line :: lines)
  end.

(** Lines 620-651 *)
Definition positions_block : result (list string) :=
  match positions state with
  | [] => Ok ["No open positions yet."]
  | _ :: _ => position_lines (positions state)
  end.

(** *** [create_trading_prompt], lines 380-659 *)

(** [int((now - state["start_time"]).total_seconds() // 60)] *)
Definition minutes_running : Z := (clock w - start_time state) / 60000000.

(** [refresh_dt.astimezone(timezone.utc)], line 393: a naive datetime is
    taken in the system time zone. *)
Definition refresh_instant (refresh_dt : datetime) : Z :=
  match utcoffset refresh_dt with
  | None => wall refresh_dt - local_utcoffset w (wall refresh_dt)
  | Some offset => wall refresh_dt - offset
  end.

(** Lines 387-396 *)
Definition news_refresh_str : option string :=
  match get_last_refresh_time w with
  | None => None
  | Some news_refresh_iso =>
      if (news_refresh_iso =? "")%string then None
      else
        let iso_candidate := Str.replace char_Z "+00:00" news_refresh_iso in
        match fromisoformat py iso_candidate with
        | Some refresh_dt => Some (strftime_utc py (refresh_instant refresh_dt))
        | None => Some news_refresh_iso
        end
  end.

(** Lines 409-410: elapsed minutes, current instant, invocation count *)
Definition preamble_lines : list string :=
  [ "It has been " ++ Str.of_int minutes_running
      ++ " minutes since you started trading. ";
    "The current time is " ++ isoformat py (clock w) ++ " and you've been invoked "
      ++ Str.of_int (invocation_count state) ++ " times. " ].

(** Line 412 *)
Definition ordering_disclaimer : string :=
  "ALL PRICE OR SIGNAL SERIES BELOW ARE ORDERED OLDEST → NEWEST.".

(** Lines 413-419 *)
Definition market_heading_lines : list string :=
  [ "Timeframe note: Intraday series use " ++ Str.of_int interval_minutes
      ++ "-minute intervals unless a different interval is explicitly mentioned.";
    separator;
    "CURRENT MARKET STATE FOR ALL COINS" ]
  +++ match news_refresh_str with
      | Some s =>
          if (s =? "")%string then [] else ["Latest news cache refresh: " ++ s]
      | None => []
      end.

(** Lines 653-657 *)
Definition closing_line : string :=
  "Based on the above data, provide your trading decision in the required JSON format.".

Definition prompt_lines : result (list string) :=
  blocks <- market_blocks (SYMBOLS (config w)) ;;
  open_positions <- positions_block ;;
  Ok (preamble_lines
      +++ [ "Below is a variety of state data, price data, and predictive signals so you can discover alpha.";
            ordering_disclaimer ]
      +++ market_heading_lines
      +++ blocks
      +++ account_lines
      +++ open_positions
      +++ [closing_line]).

Definition create_trading_prompt : result string :=
  lines <- prompt_lines ;;
  Ok (Str.join newline lines).

End Composer.

(** ** A reference runtime

    The theorems below hold for every [Runtime].  This one instantiates them
    on concrete inputs: ISO timestamps of the shape
    [YYYY-MM-DD[*HH[:MM[:SS[.fff[fff]]]][+HH:MM]]] on the proleptic Gregorian
    calendar, floats with a short decimal expansion and ASCII strings. *)

Module Ref.

Definition digit (a : ascii) : option Z :=
  let n := N_of_ascii a in
  if ((48 <=? n) && (n <=? 57))%N then Some (Z.of_N n - 48) else None.

(** Reads exactly [k] decimal digits. *)
Fixpoint digits (k : nat) (acc : Z) (s : string) : option (Z * string) :=
  match k with
  | O => Some (acc, s)
  | S k' =>
      match s with
      | String a s' =>
          match digit a with
          | Some d => digits k' (10 * acc + d) s'
          | None => None
          end
      | EmptyString => None
      end
  end.

Definition is_leap (y : Z) : bool :=
  ((y mod 4 =? 0) && negb (y mod 100 =? 0)) || (y mod 400 =? 0).

Definition days_in_month (y m : Z) : Z :=
  if m =? 2 then (if is_leap y then 29 else 28)
  else if (m =? 4) || (m =? 6) || (m =? 9) || (m =? 11) then 30
  else 31.

(** Days from 1970-01-01 to the civil date [y-m-d]. *)
Definition days_from_civil (y m d : Z) : Z :=
  let y := if m <=? 2 then y - 1 else y in
  let era := y / 400 in
  let yoe := y - era * 400 in
  let doy := (153 * (if 2 <? m then m - 3 else m + 9) + 2) / 5 + d - 1 in
  let doe := yoe * 365 + yoe / 4 - yoe / 100 + doy in
  era * 146097 + doe - 719468.

(** The civil date of a day count. *)
Definition civil_from_days (z : Z) : Z * Z * Z :=
  let z := z + 719468 in
  let era := z / 146097 in
  let doe := z - era * 146097 in
  let yoe := (doe - doe / 1460 + doe / 36524 - doe / 146096) / 365 in
  let doy := doe - (365 * yoe + yoe / 4 - yoe / 100) in
  let mp := (5 * doy + 2) / 153 in
  let d := doy - (153 * mp + 2) / 5 + 1 in
  let m := if mp <? 10 then mp + 3 else mp - 9 in
  let y := yoe + era * 400 in
  (if m <=? 2 then y + 1 else y, m, d).

Definition option_bind {A B : Type} (o : option A) (k : A -> option B) : option B :=
  match o with
  | Some a => k a
  | None => None
  end.

Notation "x <-? c ;; k" := (option_bind c (fun x => k))
  (at level 61, c at next level, right associativity).
Notation "' p <-? c ;; k" := (option_bind c (fun p => k))
  (at level 61, p pattern, c at next level, right associativity).

Definition guard (b : bool) : option unit := if b then Some tt else None.

Definition expect (c : ascii) (s : string) : option string :=
  match s with
  | String a s' => if Ascii.eqb a c then Some s' else None
  | EmptyString => None
  end.

(** [YYYY-MM-DD], in days since the epoch *)
Definition parse_date (s : string) : option (Z * string) :=
  '(y, s) <-? digits 4 0 s ;;
  s <-? expect "-" s ;;
  '(m, s) <-? digits 2 0 s ;;
  s <-? expect "-" s ;;
  '(d, s) <-? digits 2 0 s ;;
  _ <-? guard ((1 <=? y) && (1 <=? m) && (m <=? 12)
               && (1 <=? d) && (d <=? days_in_month y m)) ;;
  Some (days_from_civil y m d, s).

(** An optional [:NN] field below [bound] *)
Definition parse_field (bound : Z) (s : string) : option (Z * string) :=
  match s with
  | String ":" s' =>
      '(n, s'') <-? digits 2 0 s' ;;
      _ <-? guard (n <? bound) ;;
      Some (n, s'')
  | _ => Some (0, s)
  end.

(** An optional fraction, [.fff] or [.ffffff], in microseconds *)
Definition parse_fraction (s : string) : option (Z * string) :=
  match s with
  | String "." s' =>
      '(ms, s'') <-? digits 3 0 s' ;;
      match digits 3 0 s'' with
      | Some (us, s''') => Some (1000 * ms + us, s''')
      | None => Some (1000 * ms, s'')
      end
  | _ => Some (0, s)
  end.

(** [HH[:MM[:SS[.fff[fff]]]]], in microseconds since midnight *)
Definition parse_time (s : string) : option (Z * string) :=
  '(hh, s) <-? digits 2 0 s ;;
  _ <-? guard (hh <? 24) ;;
  '(mm, s) <-? parse_field 60 s ;;
  '(ss, s) <-? parse_field 60 s ;;
  '(us, s) <-? parse_fraction s ;;
  Some (((hh * 60 + mm) * 60 + ss) * 1000000 + us, s).

(** Nothing, or [+HH:MM] / [-HH:MM] up to the end: the offset in microseconds *)
Definition parse_offset (s : string) : option (option Z) :=
  match s with
  | EmptyString => Some None
  | String c s' =>
      _ <-? guard (Ascii.eqb c "+" || Ascii.eqb c "-") ;;
      '(hh, s') <-? digits 2 0 s' ;;
      s' <-? expect ":" s' ;;
      '(mm, s') <-? digits 2 0 s' ;;
      _ <-? guard ((hh <? 24) && (mm <? 60) && (s' =? "")%string) ;;
      let offset := (hh * 60 + mm) * 60000000 in
      Some (Some (if Ascii.eqb c "-" then - offset else offset))
  end.

Definition fromisoformat (s : string) : option datetime :=
  '(days, s) <-? parse_date s ;;
  match s with
  | EmptyString => Some {| wall := days * 86400000000; utcoffset := None |}
  | String _ s' =>
      '(time, s') <-? parse_time s' ;;
      offset <-? parse_offset s' ;;
      Some {| wall := days * 86400000000 + time; utcoffset := offset |}
  end.

Definition two (n : Z) : string := Num.pad_left 2 (Str.of_int n).

(** [YYYY-MM-DD], the separator, [HH:MM:SS] *)
Definition civil_string (sep : string) (instant : Z) : string :=
  let seconds := instant / 1000000 in
  let '(y, m, d) := civil_from_days (seconds / 86400) in
  let tod := seconds mod 86400 in
  Num.pad_left 4 (Str.of_int y) ++ "-" ++ two m ++ "-" ++ two d ++ sep
  ++ two (tod / 3600) ++ ":" ++ two (tod / 60 mod 60) ++ ":" ++ two (tod mod 60).

Definition isoformat (instant : Z) : string :=
  let us := instant mod 1000000 in
  civil_string "T" instant
  ++ (if us =? 0 then "" else "." ++ Num.pad_left 6 (Str.of_int us))
  ++ "+00:00".

Definition strftime_utc (instant : Z) : string :=
  civil_string " " instant ++ " UTC".

(** The least [k <= fuel + k0] with [x * 10^k] an integer, from [k0] on. *)
Fixpoint decimals (fuel : nat) (k0 : nat) (x : Q) : nat :=
  match fuel with
  | O => k0
  | S fuel' =>
      if (Qnum x * 10 ^ Z.of_nat k0) mod Zpos (Qden x) =? 0 then k0
      else decimals fuel' (S k0) x
  end.

Definition float_repr (x : Q) : string :=
  Num.format_fixed false (Nat.max 1 (decimals 17 0 x)) x.

Definition char_quote : ascii := ascii_of_nat 34.
Definition char_backslash : ascii := ascii_of_nat 92.

Fixpoint escape (s : string) : string :=
  match s with
  | EmptyString => EmptyString
  | String a s' =>
      if Ascii.eqb a char_quote || Ascii.eqb a char_backslash
      then String char_backslash (String a (escape s'))
      else if Ascii.eqb a char_newline
      then String char_backslash (String "n" (escape s'))
      else String a (escape s')
  end.

Definition json_str (s : string) : string :=
  String char_quote (escape s) ++ String char_quote EmptyString.

Definition py : Runtime :=
  Build_Runtime fromisoformat isoformat strftime_utc float_repr json_str.

End Ref.

(** ** The specification's wording

    Definitions that follow the sentences of the specification, to compare
    with the definitions above, which follow the code. *)

Module Spec.

(** *** Freshness: the buckets on the age in whole seconds, a future
    timestamp counting as age zero: under 60 seconds, under 60 minutes,
    under 24 hours, under 7 days, under 5 weeks, under 12 months of 30
    days, and years of 365 days beyond. *)

Definition minute : Z := 60.
Definition hour : Z := 60 * minute.
Definition day : Z := 24 * hour.
Definition week : Z := 7 * day.
Definition month : Z := 30 * day.
Definition year : Z := 365 * day.

(** "N unit ago", the unit in the plural unless N is 1 *)
Definition ago (n : Z) (unit : string) : string :=
  Str.of_int n ++ " " ++ (if n =? 1 then unit else unit ++ "s") ++ " ago".

Definition phrase (delta : Z) : string :=
  let age := Z.max 0 delta in
  if age <? 60 then "just now"
  else if age <? 60 * minute then ago (age / minute) "minute"
  else if age <? 24 * hour then ago (age / hour) "hour"
  else if age <? 7 * day then ago (age / day) "day"
  else if age <? 5 * week then ago (age / week) "week"
  else if age <? 12 * month then ago (age / month) "month"
  else ago (age / year) "year".

(** The UTC instant of a timestamp: its wall-clock time less its UTC
    offset, a timestamp without an offset counting as UTC. *)
Definition utc_instant (published_dt : datetime) : Z :=
  wall published_dt
  - match utcoffset published_dt with
    | Some offset => offset
    | None => 0
    end.

(** [now - published] in whole seconds, negative for a future timestamp *)
Definition delta_seconds (now : Z) (published_dt : datetime) : Z :=
  (now - utc_instant published_dt) / 1000000.

(** The instants a Python [datetime] can hold, from
    0001-01-01T00:00:00 to 9999-12-31T23:59:59.999999 UTC: a conversion to
    UTC that leaves them raises [OverflowError]. *)
Definition datetime_min : Z := -62135596800000000.
Definition datetime_max : Z := 253402300799999999.

Definition representable (instant : Z) : Prop :=
  datetime_min <= instant <= datetime_max.

(** The ages whose [total_seconds()], a binary64 quotient, has the exact
    whole part: below 2^34 seconds (544 years), where two floats are less
    than a microsecond apart. *)
Definition exact_seconds (delta : Z) : Prop := delta < 2 ^ 34.

(** *** Sentiment: the lower-cased label, its weight, the contribution of
    an entry and the mean of the contributions. *)

Definition label (entry : dict) : string :=
  match sentiment_of entry with
  | VStr s => Str.lower s
  | _ => "unknown"
  end.

Definition weight (lbl : string) : option Q :=
  if (lbl =? "positive")%string then Some 1%Q
  else if (lbl =? "negative")%string then Some (-1)%Q
  else if (lbl =? "neutral")%string then Some 0%Q
  else None.

Definition recognized (entry : dict) : bool :=
  match weight (label entry) with
  | Some _ => true
  | None => false
  end.

(** [weight * confidence] with a numeric confidence, [weight] without *)
Definition contribution (entry : dict) : option Q :=
  match weight (label entry) with
  | Some wt =>
      Some match get "sentiment_confidence" entry with
           | VNum c => (wt * c)%Q
           | _ => wt
           end
  | None => None
  end.

Fixpoint contributions (entries : list dict) : list Q :=
  match entries with
  | [] => []
  | e :: rest =>
      match contribution e with
      | Some x => x :: contributions rest
      | None => contributions rest
      end
  end.

(** Arithmetic mean, 0 for the empty list *)
Definition mean (l : list Q) : Q :=
  match l with
  | [] => 0%Q
  | _ :: _ => (Num.sum l / inject_Z (Z.of_nat (List.length l)))%Q
  end.

(** The mean in binary64 arithmetic: the sum, rounded to the nearest
    float, over the count, rounded to the nearest float; 0 for the empty
    list. *)
Definition rounded_mean (l : list Q) : Q :=
  match l with
  | [] => 0%Q
  | _ :: _ =>
      Num.binary64
        (Num.binary64 (Num.sum l)
         / Num.binary64 (inject_Z (Z.of_nat (List.length l))))%Q
  end.

Definition net_score (entries : list dict) : Q :=
  rounded_mean (contributions entries).

(** The float written [0.2] *)
Definition threshold : Q := Num.binary64 0.2.

(** How many entries carry the label [lbl] *)
Fixpoint count (lbl : string) (entries : list dict) : Z :=
  match entries with
  | [] => 0
  | e :: rest => (if (label e =? lbl)%string then 1 else 0) + count lbl rest
  end.

(** An entry whose label is absent or not a recognised one *)
Definition unknown_label (entry : dict) : Prop :=
  exists s, sentiment_of entry = VStr s /\ weight (Str.lower s) = None.

(** An entry with no derivable timestamp *)
Definition undated (entry : dict) : Prop := timestamp_of entry = VStr "".

(** *** Series: a named series written in full, in the order of the list *)
Definition series_line (repr : Q -> string) (name : string) (series : list Q)
  : string :=
  "    " ++ name ++ ": [" ++ Str.join ", " (List.map repr series) ++ "]".

(** *** Typing: an entry whose text fields are strings where they are set.
    A field that is missing, [None] or otherwise false is skipped by the
    [or] chains; the title is read with the default [""]. *)

Definition is_str (v : value) : bool :=
  match v with
  | VStr _ => true
  | _ => false
  end.

Definition str_or_falsy (v : value) : bool := is_str v || negb (truthy v).

Definition well_typed (entry : dict) : bool :=
  str_or_falsy (get "sentiment" entry)
  && str_or_falsy (get "published_at" entry)
  && str_or_falsy (get "date" entry)
  && str_or_falsy (get "summary" entry)
  && str_or_falsy (get "snippet" entry)
  && is_str (get_default "title" (VStr "") entry).

(** The datetime parsed from an entry's publish timestamp, when it has one
    that parses. *)
Definition published_dt (py : Runtime) (entry : dict) : option datetime :=
  let candidate := py_or (get "published_at" entry) (get "date" entry) in
  let text := Str.strip (py_str py candidate) in
  if truthy candidate && negb (text =? "")%string
  then fromisoformat py (Str.replace char_Z "+00:00" text)
  else None.

(** The datetime parsed from the cache's refresh time, when it parses. *)
Definition refresh_dt (py : Runtime) (w : World) : option datetime :=
  match get_last_refresh_time w with
  | Some iso =>
      if (iso =? "")%string then None
      else fromisoformat py (Str.replace char_Z "+00:00" iso)
  | None => None
  end.


(** *** Purity: two worlds that agree on what one invocation reads: the
    clock, [config], the cache's refresh time, the system time zone and the
    cached news of every configured coin that has a snapshot. *)
Definition same_reads (market_snapshots : list (string * MarketSnapshot))
                      (w1 w2 : World) : Prop :=
  clock w1 = clock w2
  /\ config w1 = config w2
  /\ get_last_refresh_time w1 = get_last_refresh_time w2
  /\ (forall t, local_utcoffset w1 t = local_utcoffset w2 t)
  /\ forall symbol coin,
       In symbol (SYMBOLS (config w1)) ->
       lookup symbol (SYMBOL_TO_COIN (config w1)) = Some coin ->
       lookup coin market_snapshots <> None ->
       get_cached_news w1 coin 5 = get_cached_news w2 coin 5.

End Spec.

(** The key entry of the loop, when there is one, is a well-typed entry. *)
Definition key_ok (key : option (nat * dict)) : Prop :=
  match key with
  | Some (_, e) => Spec.well_typed e = true
  | None => True
  end.

(** [w] with another list of configured symbols *)
Definition with_symbols (w : World) (symbols : list string) : World :=
  {| clock := clock w;
     get_last_refresh_time := get_last_refresh_time w;
     get_cached_news := get_cached_news w;
     config := {| SYMBOLS := symbols;
                  SYMBOL_TO_COIN := SYMBOL_TO_COIN (config w);
                  CHECK_INTERVAL := CHECK_INTERVAL (config w);
                  TRADING_FEE_RATE := TRADING_FEE_RATE (config w) |};
     local_utcoffset := local_utcoffset w |}.

(** ** Sample inputs *)

Module Sample.

(** 2024-01-01T00:00:00+00:00 *)
Definition now : Z := 1704067200000000.

Definition published (s : string) : dict := [("published_at", VStr s)].

(** The floats written [0.8], [0.6] and [0.2] *)
Definition float_0_8 : Q := Eval vm_compute in Num.binary64 0.8.
Definition float_0_6 : Q := Eval vm_compute in Num.binary64 0.6.
Definition float_0_2 : Q := Eval vm_compute in Num.binary64 0.2.

(** The three entries of the specification's sentiment example *)
Definition entries : list dict :=
  [ [("title", VStr "Earnings beat forecasts"); ("sentiment", VStr "positive");
     ("sentiment_confidence", VNum float_0_8); ("source", VStr "wire");
     ("published_at", VStr "2023-12-31T23:00:00Z")];
    [("title", VStr "Regulator opens probe"); ("sentiment", VStr "negative");
     ("sentiment_confidence", VNum float_0_2); ("source", VStr "desk")];
    [("title", VStr "Dividend date set"); ("sentiment", VStr "neutral");
     ("source", VStr "desk")] ].

(** Two entries whose confidences, 0.6 and 0.2, have a mean on the
    threshold *)
Definition on_threshold : list dict :=
  [ [("title", VStr "Loan growth tops guidance"); ("sentiment", VStr "positive");
     ("sentiment_confidence", VNum float_0_6); ("source", VStr "wire")];
    [("title", VStr "Margin pressure persists"); ("sentiment", VStr "negative");
     ("sentiment_confidence", VNum float_0_2); ("source", VStr "desk")] ].

(** Entries with no recognised label and no timestamp *)
Definition unlabelled : list dict :=
  [ [("title", VStr "First headline")];
    [("title", VStr "Second headline"); ("sentiment", VStr "mixed")] ].

Definition series : list Q := [1000; 1010.5; 1050]%Q.

Definition intraday : IntradaySeries :=
  {| i_mid_prices := series; i_ema20 := series; i_macd := [0.5; 0.25]%Q;
     i_rsi7 := [55; 60]%Q; i_rsi14 := [50; 52]%Q; i_vwap := series |}.

Definition snapshot : MarketSnapshot :=
  {| price := Some 1050%Q; ema20 := Some 1020%Q; macd := Some 0.5%Q; rsi7 := None;
     intraday_series := intraday;
     long_term := {| lt_ema20 := Some 1000%Q; lt_ema50 := Some 990%Q;
                     lt_atr3 := Some 12%Q; lt_atr14 := None;
                     lt_current_volume := Some 100000%Q;
                     lt_average_volume := Some 90000%Q;
                     lt_macd := [0.5]%Q; lt_rsi14 := [51]%Q; lt_vwap := [1001]%Q |} |}.

Definition market_snapshots : list (string * MarketSnapshot) := [("BBCA", snapshot)].

(** The same snapshot with [None] as price *)
Definition unpriced : MarketSnapshot :=
  {| price := None; ema20 := ema20 snapshot; macd := macd snapshot;
     rsi7 := rsi7 snapshot; intraday_series := intraday;
     long_term := long_term snapshot |}.

(** An entry whose timestamp is free text, with a pre-rendered date *)
Definition free_text_date : dict :=
  [("title", VStr "Rights issue approved"); ("date", VStr " last Friday ");
   ("raw_date", VStr "3 days ago")].

Definition cfg : Config :=
  {| SYMBOLS := ["BBCA.JK"; "TLKM.JK"];
     SYMBOL_TO_COIN := [("BBCA.JK", "BBCA"); ("TLKM.JK", "TLKM")];
     CHECK_INTERVAL := 300;
     TRADING_FEE_RATE := 0.0015%Q |}.

Definition news (coin : string) (limit : Z) : list dict :=
  if (coin =? "BBCA")%string then entries else [].

(** Western Indonesia Time, UTC+07:00 the year round *)
Definition wib (t : Z) : Z := 25200000000.

Definition world : World :=
  {| clock := now;
     get_last_refresh_time := Some "2023-12-31T23:30:00Z";
     get_cached_news := news;
     config := cfg;
     local_utcoffset := wib |}.

(** The same world five minutes later *)
Definition later : World :=
  {| clock := now + 300000000;
     get_last_refresh_time := get_last_refresh_time world;
     get_cached_news := news;
     config := cfg;
     local_utcoffset := wib |}.

(** The same world with other news cached for a coin that has no snapshot *)
Definition other_news : World :=
  {| clock := now;
     get_last_refresh_time := get_last_refresh_time world;
     get_cached_news := fun coin limit =>
                          if (coin =? "TLKM")%string then unlabelled else news coin limit;
     config := cfg;
     local_utcoffset := wib |}.

Definition long_position : Position :=
  {| side := "long"; quantity := 10; entry_price := 1000; profit_target := 1100;
     stop_loss := 950; invalidation_condition := "close below 950";
     confidence := 0.7; risk_idr := Some 500%Q; risk_usd := None;
     fees_paid := None |}%Q.

Definition short_position : Position :=
  {| side := "short"; quantity := 10; entry_price := 1000; profit_target := 900;
     stop_loss := 1050; invalidation_condition := "close above 1050";
     confidence := 0.6; risk_idr := None; risk_usd := None;
     fees_paid := Some 1.5%Q |}%Q.

(** One hour after the start, no position *)
Definition state : TradingState :=
  {| start_time := now - 3600000000; invocation_count := 12;
     total_return_pct := Some 1.25%Q; sharpe_ratio := None;
     total_balance := Some 100000000%Q; net_unrealized_pnl := Some 0%Q;
     total_equity := Some 100000000%Q; total_fees_paid := None;
     positions := [] |}.

Definition state_with_positions : TradingState :=
  {| start_time := start_time state; invocation_count := 13;
     total_return_pct := total_return_pct state; sharpe_ratio := None;
     total_balance := total_balance state;
     net_unrealized_pnl := Some 500%Q;
     total_equity := total_equity state; total_fees_paid := Some 1.5%Q;
     positions := [("BBCA", long_position); ("TLKM", short_position)] |}.

(** The document composed in the sample world *)
Definition document : string :=
  Eval vm_compute in
    match create_trading_prompt Ref.py world state market_snapshots with
    | Ok doc => doc
    | Raise _ => ""
    end.

End Sample.

(** ** Derived notions

    What the loop of [summarize_news_sentiment] computes, written as
    functions of the list, and a few sample inputs more. *)

Module Derived.

(** The timestamp an entry is compared by, as a string *)
Definition timestamp_string (e : dict) : string :=
  match timestamp_of e with
  | VStr s => s
  | _ => ""
  end.

(** One step of the key selection on entries whose timestamps are strings:
    the entry replaces a key that is an empty dictionary, or one whose
    timestamp is strictly smaller. *)
Definition pick (i : nat) (e : dict) (key : option (nat * dict))
  : option (nat * dict) :=
  match key with
  | Some (j, old) =>
      if dict_truthy old then
        if Str.gtb (timestamp_string e) (timestamp_string old)
        then Some (i, e) else Some (j, old)
      else Some (i, e)
  | None => Some (i, e)
  end.

(** The number of entries counted *)
Definition total (c : Counts) : Z :=
  positive c + negative c + neutral c + unknown c.

(** [c in s] *)
Fixpoint has_char (c : ascii) (s : string) : bool :=
  match s with
  | EmptyString => false
  | String a s' => Ascii.eqb a c || has_char c s'
  end.

(** Every numeric confidence of the entry lies between 0 and 1. *)
Definition confidence_in_unit (e : dict) : Prop :=
  forall c, get "sentiment_confidence" e = VNum c -> (0 <= c <= 1)%Q.

(** The invariant of the key selection after the entries [seen]: the key is
    one of them, at its index; no entry seen has a greater timestamp; the
    non-empty entries seen before a non-empty key have a strictly smaller
    one; and the key is an empty dictionary only if every entry seen is. *)
Definition key_is_latest (seen : list dict) (key : option (nat * dict)) : Prop :=
  match key with
  | None => seen = []
  | Some (j, k) =>
      nth_error seen j = Some k
      /\ (forall e, In e seen ->
                    String.leb (timestamp_string e) (timestamp_string k) = true)
      /\ (forall i e, (i < j)%nat -> nth_error seen i = Some e ->
                      dict_truthy e = true ->
                      Str.gtb (timestamp_string k) (timestamp_string e) = true)
      /\ (dict_truthy k = false -> forall e, In e seen -> e = [])
  end.

(** The part of the invariant that needs no typing: the key is one of the
    entries seen, at its index, and it is an empty dictionary only if every
    entry seen is. *)
Definition key_is_member (seen : list dict) (key : option (nat * dict)) : Prop :=
  match key with
  | None => seen = []
  | Some (j, k) =>
      nth_error seen j = Some k
      /\ (dict_truthy k = false -> forall e, In e seen -> e = [])
  end.

(** Sample entries with timestamps, the latest one in the middle and twice *)
Definition dated : list dict :=
  [ [("title", VStr "Oldest"); ("published_at", VStr "2023-12-30T08:00:00Z")];
    [("title", VStr "Latest"); ("date", VStr "2023-12-31T21:00:00Z");
     ("sentiment", VStr "Positive"); ("sentiment_confidence", VNum 0.5)];
    [("title", VStr "Latest again"); ("published_at", VStr "2023-12-31T21:00:00Z");
     ("sentiment", VStr "negative")];
    [("summary", VStr "No date")] ].

(** An entry whose title is [None] *)
Definition null_title : dict := [("title", VNone); ("sentiment", VStr "neutral")].

(** A world whose configuration names a symbol that has no coin *)
Definition unmapped_symbol : World :=
  {| clock := Sample.now;
     get_last_refresh_time := None;
     get_cached_news := fun _ _ => [];
     config := {| SYMBOLS := ["BBCA.JK"; "GOTO.JK"];
                  SYMBOL_TO_COIN := [("BBCA.JK", "BBCA")];
                  CHECK_INTERVAL := 300;
                  TRADING_FEE_RATE := 0.0015%Q |};
     local_utcoffset := Sample.wib |}.

(** A world with free text as refresh time, and dated news for one coin *)
Definition free_text_refresh : World :=
  {| clock := Sample.now;
     get_last_refresh_time := Some "Zero hour, Monday";
     get_cached_news := fun coin _ => if (coin =? "BBCA")%string then dated else [];
     config := Sample.cfg;
     local_utcoffset := Sample.wib |}.

(** The rational a primitive float of the kernel denotes, when it is
    finite *)
Definition float_value (f : PrimFloat.float) : option Q :=
  match FloatOps.Prim2SF f with
  | SpecFloat.S754_zero _ => Some 0%Q
  | SpecFloat.S754_finite s m e =>
      Some (Qred ((if s then -1 else 1) * inject_Z (Zpos m) * Num.pow2 e))%Q
  | _ => None
  end.

(** A state that started one second after the sample clock reading *)
Definition started_later : TradingState :=
  {| start_time := Sample.now + 1000000; invocation_count := 1;
     total_return_pct := None; sharpe_ratio := None; total_balance := None;
     net_unrealized_pnl := None; total_equity := None; total_fees_paid := None;
     positions := [] |}.

End Derived.

(** * Properties *)

(** ** The freshness formatter *)

Ltac split_ltb :=
  repeat match goal with
         | |- context [?a <? ?b] => destruct (Z.ltb_spec a b)
         end.

Ltac div_lia := Z.div_mod_to_equations; lia.

Section FreshnessFacts.

Variable py : Runtime.
Variables (now : Z) (entry : dict) (s : string).

(** The entry's publish timestamp is the string [s], not blank. *)
Hypothesis candidate :
  py_or (get "published_at" entry) (get "date" entry) = VStr s.
Hypothesis not_blank : Str.strip s <> "".

Lemma age_seconds_clamped dt :
  age_seconds now dt = Z.max 0 (Spec.delta_seconds now dt).
Proof.
  unfold age_seconds, Spec.delta_seconds, Spec.utc_instant, instant.
  destruct (utcoffset dt) as [offset|];
    [destruct (Z.ltb_spec (now - (wall dt - offset)) 0)
    |destruct (Z.ltb_spec (now - wall dt) 0)]; div_lia.
Qed.

(** What [describe_freshness] returns once the timestamp has parsed. *)
Lemma describe_freshness_parsed dt :
  fromisoformat py (Str.replace char_Z "+00:00" (Str.strip s)) = Some dt ->
  describe_freshness py now entry = VStr (freshness_phrase (age_seconds now dt)).
Proof.
  intros Hparse. unfold describe_freshness.
  rewrite candidate. cbn [truthy py_str].
  destruct (String.eqb_spec s "") as [E|_]; [subst s; now elim not_blank|].
  cbn [negb].
  destruct (String.eqb_spec (Str.strip s) "") as [E|_]; [now elim not_blank|].
  now rewrite Hparse.
Qed.

(** What it returns when the timestamp does not parse. *)
Lemma describe_freshness_unparsed :
  fromisoformat py (Str.replace char_Z "+00:00" (Str.strip s)) = None ->
  describe_freshness py now entry
  = py_or (get "raw_date" entry)
          (VStr (Str.replace char_Z "+00:00" (Str.strip s))).
Proof.
  intros Hparse. unfold describe_freshness.
  rewrite candidate. cbn [truthy py_str].
  destruct (String.eqb_spec s "") as [E|_]; [subst s; now elim not_blank|].
  cbn [negb].
  destruct (String.eqb_spec (Str.strip s) "") as [E|_]; [now elim not_blank|].
  now rewrite Hparse.
Qed.

End FreshnessFacts.

Lemma append_assoc (a b c : string) : ((a ++ b) ++ c = a ++ (b ++ c))%string.
Proof. induction a as [|x a IH]; cbn; [reflexivity|now rewrite IH]. Qed.

(** The f-string of the code writes the specification's count. *)
Lemma count_ago_spec n unit : count_ago n unit = Spec.ago n unit.
Proof.
  unfold count_ago, Spec.ago. destruct (n =? 1); [|now rewrite append_assoc].
  reflexivity.
Qed.

(** The nested floor divisions of the code are the direct ones. *)
Lemma freshness_phrase_spec seconds :
  freshness_phrase (Z.max 0 seconds) = Spec.phrase seconds.
Proof.
  unfold freshness_phrase, Spec.phrase. rewrite <- !count_ago_spec.
  unfold Spec.year, Spec.month, Spec.week, Spec.day, Spec.hour, Spec.minute.
  cbv zeta.
  generalize (Z.le_max_l 0 seconds). generalize (Z.max 0 seconds). intros age Hage.
  split_ltb; try reflexivity; try (exfalso; div_lia); (f_equal; div_lia).
Qed.

Lemma zero_years seconds :
  360 <= seconds / Spec.day <= 364 ->
  freshness_phrase seconds = "0 years ago".
Proof.
  unfold Spec.day, Spec.hour, Spec.minute. intros H.
  unfold freshness_phrase. cbv zeta.
  split_ltb; try (exfalso; div_lia).
  replace (seconds / 60 / 60 / 24 / 365) with 0 by div_lia.
  reflexivity.
Qed.

(** The bounds of [datetime] on the calendar of the reference runtime. *)
Lemma datetime_range :
  Ref.days_from_civil 1 1 1 * 86400000000 = Spec.datetime_min
  /\ Ref.days_from_civil 10000 1 1 * 86400000000 - 1 = Spec.datetime_max.
Proof. split; reflexivity. Qed.

(** The freshness buckets.  Once the publish timestamp has parsed to a
    datetime whose UTC instant is within the range of [datetime] (the
    conversion does not raise) and that is less than 2^34 seconds old,
    [describe_freshness] returns the phrase of the specification's buckets
    for the age in whole seconds: a negative delta counts as zero ("just
    now"), and then, with floor division and "s" unless the count is 1,
    under 60 seconds "just now", under 60 minutes the minutes, under 24
    hours the hours, under 7 days the days, under 5 weeks the weeks, under
    12 months of 30 days the months, years of 365 days beyond.  The seven
    sample deltas give the seven phrases listed. *)
Theorem describe_freshness_buckets py now entry s dt :
  py_or (get "published_at" entry) (get "date" entry) = VStr s ->
  Str.strip s <> "" ->
  fromisoformat py (Str.replace char_Z "+00:00" (Str.strip s)) = Some dt ->
  Spec.representable (Spec.utc_instant dt) ->
  Spec.exact_seconds (Spec.delta_seconds now dt) ->
  describe_freshness py now entry = VStr (Spec.phrase (Spec.delta_seconds now dt))
  /\ (Spec.delta_seconds now dt < 0 ->
      describe_freshness py now entry = VStr "just now")
  /\ List.map freshness_phrase
       [30; 90; 3600; 90000; 8 * 86400; 40 * 86400; 400 * 86400]
     = ["just now"; "1 minute ago"; "1 hour ago"; "1 day ago"; "1 week ago";
        "1 month ago"; "1 year ago"].
Proof.
  intros Hc Hne Hparse _ _.
  pose proof (describe_freshness_parsed py now entry s Hc Hne dt Hparse) as H.
  rewrite age_seconds_clamped in H.
  split; [|split].
  - now rewrite <- freshness_phrase_spec.
  - intros Hneg. rewrite H. rewrite Z.max_l by lia. reflexivity.
  - reflexivity.
Qed.

Lemma describe_freshness_buckets_witness :
  describe_freshness Ref.py Sample.now (Sample.published "2023-12-31T22:30:00Z")
  = VStr "1 hour ago".
Proof.
  refine (proj1 (describe_freshness_buckets Ref.py Sample.now
                   (Sample.published "2023-12-31T22:30:00Z")
                   "2023-12-31T22:30:00Z"
                   {| wall := 1704061800000000; utcoffset := Some 0 |}
                   _ _ _ _ _)).
  - reflexivity.
  - discriminate.
  - reflexivity.
  - vm_compute. split; discriminate.
  - reflexivity.
Defined.

(** C10.  Once the publish timestamp has parsed and the age is between 360
    and 364 whole days inclusive, [describe_freshness] returns "0 years ago":
    the year count is the floor of days over 365, with no lower bound of 1. *)
Theorem describe_freshness_zero_years py now entry s dt :
  py_or (get "published_at" entry) (get "date" entry) = VStr s ->
  Str.strip s <> "" ->
  fromisoformat py (Str.replace char_Z "+00:00" (Str.strip s)) = Some dt ->
  360 <= Spec.delta_seconds now dt / Spec.day <= 364 ->
  describe_freshness py now entry = VStr "0 years ago".
Proof.
  intros Hc Hne Hparse Hdays.
  rewrite (describe_freshness_parsed py now entry s Hc Hne dt Hparse).
  rewrite age_seconds_clamped.
  assert (0 <= Spec.delta_seconds now dt).
  { unfold Spec.day, Spec.hour, Spec.minute in Hdays. div_lia. }
  rewrite Z.max_r by assumption.
  now rewrite zero_years.
Qed.

Lemma describe_freshness_zero_years_witness :
  describe_freshness Ref.py Sample.now (Sample.published "2023-01-05T00:00:00+00:00")
  = VStr "0 years ago".
Proof.
  refine (describe_freshness_zero_years Ref.py Sample.now
            (Sample.published "2023-01-05T00:00:00+00:00")
            "2023-01-05T00:00:00+00:00"
            {| wall := 1672876800000000; utcoffset := Some 0 |} _ _ _ _).
  - reflexivity.
  - discriminate.
  - reflexivity.
  - vm_compute. split; discriminate.
Defined.

Lemma describe_freshness_unparsed_witness :
  describe_freshness Ref.py Sample.now Sample.free_text_date = VStr "3 days ago".
Proof.
  refine (describe_freshness_unparsed Ref.py Sample.now Sample.free_text_date
            " last Friday " _ _ _).
  - reflexivity.
  - discriminate.
  - reflexivity.
Defined.

(** C3, at the failing input.  A timestamp with month 13 does not parse; with
    no [raw_date] the function returns the candidate it handed to the
    parser, in which every "Z" has become "+00:00", and not the string the
    entry carries. *)
Theorem describe_freshness_returns_rewritten_candidate :
  fromisoformat Ref.py "2024-13-45T00:00:00+00:00" = None
  /\ describe_freshness Ref.py Sample.now (Sample.published "2024-13-45T00:00:00Z")
     = VStr "2024-13-45T00:00:00+00:00"
  /\ describe_freshness Ref.py Sample.now (Sample.published "2024-13-45T00:00:00Z")
     <> VStr "2024-13-45T00:00:00Z".
Proof.
  split; [reflexivity|]. split; [reflexivity|].
  vm_compute. discriminate.
Qed.

(** ** Binary64 rounding *)

Section Rounding.

Local Open Scope Q_scope.

(** Rounding to the nearest integer, ties to even *)
Lemma round_spec z :
  let r := Num.round_half_even z in
  inject_Z r - (1#2) <= z <= inject_Z r + (1#2)
  /\ (z == inject_Z r + (1#2) -> Z.even r = true)
  /\ (z == inject_Z r - (1#2) -> Z.even r = true).
Proof.
  destruct z as [n d]. unfold Num.round_half_even. cbn [Qnum Qden].
  pose proof (Z.div_mod n (Zpos d) ltac:(lia)) as Hdm.
  pose proof (Z.mod_pos_bound n (Zpos d) ltac:(lia)) as Hb.
  set (f := (n / Zpos d)%Z) in *. set (m := (n mod Zpos d)%Z) in *.
  cbv zeta.
  destruct (Z.ltb_spec (2 * m) (Zpos d)) as [H1|H1];
    [|destruct (Z.ltb_spec (Zpos d) (2 * m)) as [H2|H2];
      [|destruct (Z.even f) eqn:He]];
    unfold Qle, Qeq, Qplus, Qminus, Qopp, inject_Z; cbn;
    repeat split; try nia; intros _;
    rewrite ?Z.even_add, ?He; auto.
Qed.

Lemma inject_half_le a b : inject_Z a - (1#2) <= inject_Z b + (1#2) -> (a <= b + 1)%Z.
Proof. unfold Qle, Qplus, Qminus, Qopp, inject_Z; cbn. lia. Qed.

Lemma inject_half_lt a b : inject_Z a - (1#2) <= inject_Z b -> (a <= b)%Z.
Proof. unfold Qle, Qplus, Qminus, Qopp, inject_Z; cbn. lia. Qed.

Lemma inject_half_gt a b : inject_Z b <= inject_Z a + (1#2) -> (b <= a)%Z.
Proof. unfold Qle, Qplus, Qminus, Qopp, inject_Z; cbn. lia. Qed.

Lemma round_le_int z k : z <= inject_Z k -> (Num.round_half_even z <= k)%Z.
Proof.
  intros H. destruct (round_spec z) as ((H1 & _) & _).
  set (r := Num.round_half_even z) in *. apply inject_half_lt. lra.
Qed.

Lemma round_ge_int z k : inject_Z k <= z -> (k <= Num.round_half_even z)%Z.
Proof.
  intros H. destruct (round_spec z) as ((_ & H1) & _).
  set (r := Num.round_half_even z) in *. apply inject_half_gt. lra.
Qed.

Lemma round_unique z r :
  inject_Z r - (1#2) <= z <= inject_Z r + (1#2) ->
  (z == inject_Z r + (1#2) -> Z.even r = true) ->
  (z == inject_Z r - (1#2) -> Z.even r = true) ->
  Num.round_half_even z = r.
Proof.
  intros (Hl & Hu) Hp Hm.
  destruct (round_spec z) as ((Hl' & Hu') & Hp' & Hm').
  set (r' := Num.round_half_even z) in *.
  assert (r' <= r + 1)%Z by (apply inject_half_le; lra).
  assert (r <= r' + 1)%Z by (apply inject_half_le; lra).
  destruct (Z.eq_dec r' r) as [|Hne]; [assumption|exfalso].
  destruct (Z.eq_dec r' (r + 1)) as [E|E'].
  - rewrite E in *. rewrite inject_Z_plus in *. change (inject_Z 1) with 1 in *.
    assert (z == inject_Z r + (1#2)) as E1 by lra.
    assert (z == inject_Z r + 1 - (1#2)) as E2 by lra.
    apply Hp in E1. apply Hm' in E2. rewrite Z.even_add, E1 in E2. discriminate.
  - assert (r = r' + 1)%Z as E by lia.
    rewrite E in *. rewrite inject_Z_plus in *. change (inject_Z 1) with 1 in *.
    assert (z == inject_Z r' + (1#2)) as E1 by lra.
    assert (z == inject_Z r' + 1 - (1#2)) as E2 by lra.
    apply Hp' in E1. apply Hm in E2. rewrite Z.even_add, E1 in E2. discriminate.
Qed.

Lemma round_compat x y : x == y -> Num.round_half_even x = Num.round_half_even y.
Proof.
  intros E. symmetry. apply round_unique.
  all: destruct (round_spec x) as ((Ha & Hb) & Hp & Hm);
    set (r := Num.round_half_even x) in *.
  - split; lra.
  - intros H. apply Hp. lra.
  - intros H. apply Hm. lra.
Qed.

Lemma round_mono x y : x <= y -> (Num.round_half_even x <= Num.round_half_even y)%Z.
Proof.
  intros H.
  destruct (round_spec x) as ((Hlx & Hux) & Hpx & Hmx).
  destruct (round_spec y) as ((Hly & Huy) & Hpy & Hmy).
  set (rx := Num.round_half_even x) in *. set (ry := Num.round_half_even y) in *.
  destruct (Z_le_gt_dec rx ry) as [|Hgt]; [assumption|exfalso].
  assert (inject_Z ry + 1 <= inject_Z rx) as Hq.
  { change 1 with (inject_Z 1). rewrite <- (inject_Z_plus ry 1).
    rewrite <- Zle_Qle. lia. }
  assert (x == inject_Z rx - (1#2)) as E1 by lra.
  assert (y == inject_Z ry + (1#2)) as E2 by lra.
  assert (rx <= ry + 1)%Z by (apply inject_half_le; lra).
  assert (rx = ry + 1)%Z as E3 by lia.
  apply Hmx in E1. apply Hpy in E2. rewrite E3, Z.even_add, E2 in E1. discriminate.
Qed.

Lemma round_opp z : Num.round_half_even (- z) = (- Num.round_half_even z)%Z.
Proof.
  destruct (round_spec z) as ((Hl & Hu) & Hp & Hm).
  set (r := Num.round_half_even z) in *.
  apply round_unique; rewrite inject_Z_opp.
  - split; lra.
  - intros E. rewrite Z.even_opp. apply Hm. lra.
  - intros E. rewrite Z.even_opp. apply Hp. lra.
Qed.

Lemma round_int k : Num.round_half_even (inject_Z k) = k.
Proof.
  apply Z.le_antisymm; [apply round_le_int|apply round_ge_int]; lra.
Qed.

Lemma pow2_pos e : 0 < Num.pow2 e.
Proof. apply Qpower_0_lt. reflexivity. Qed.

Lemma pow2_succ e : Num.pow2 (e + 1) == 2 * Num.pow2 e.
Proof.
  unfold Num.pow2. rewrite Qpower_plus by discriminate. rewrite Qpower_1_r. ring.
Qed.

Lemma pow2_add a b : Num.pow2 (a + b) == Num.pow2 a * Num.pow2 b.
Proof. unfold Num.pow2. apply Qpower_plus. discriminate. Qed.

Lemma pow2_le a b : (a <= b)%Z -> Num.pow2 a <= Num.pow2 b.
Proof. intros H. apply Qpower_le_compat_l; [assumption|discriminate]. Qed.

Lemma pow2_lt a b : (a < b)%Z -> Num.pow2 a < Num.pow2 b.
Proof. intros H. apply Qpower_lt_compat_l; [assumption|reflexivity]. Qed.

Lemma pow2_inject n : (0 <= n)%Z -> inject_Z (2 ^ n) == Num.pow2 n.
Proof. intros H. unfold Num.pow2. now rewrite Zpower_Qpower. Qed.

(** The bounds of a positive integer by powers of two *)
Lemma log2_bounds n :
  (0 < n)%Z ->
  Num.pow2 (Z.log2 n) <= inject_Z n /\ inject_Z n < 2 * Num.pow2 (Z.log2 n).
Proof.
  intros H. destruct (Z.log2_spec n H) as (Hl & Hu).
  pose proof (Z.log2_nonneg n) as Hn.
  rewrite <- pow2_succ. rewrite <- !pow2_inject by lia.
  rewrite <- Zle_Qle, <- Zlt_Qlt. replace (Z.log2 n + 1)%Z with (Z.succ (Z.log2 n)) by lia.
  split; assumption.
Qed.

Lemma ilog2_spec q :
  0 < q -> Num.pow2 (Num.ilog2 q) <= q /\ q < Num.pow2 (Num.ilog2 q + 1).
Proof.
  intros Hq. unfold Num.ilog2.
  assert (0 < Qnum q)%Z as Hn by (destruct q; unfold Qlt in Hq; cbn in *; lia).
  destruct (log2_bounds (Qnum q) Hn) as (Ha & Ha').
  destruct (log2_bounds (Zpos (Qden q)) ltac:(lia)) as (Hd & Hd').
  set (la := Z.log2 (Qnum q)) in *. set (lb := Z.log2 (Zpos (Qden q))) in *.
  assert (inject_Z (Qnum q) == q * inject_Z (Zpos (Qden q))) as Eq.
  { destruct q as [n d]. unfold Qeq, Qmult, inject_Z. cbn. lia. }
  set (A := inject_Z (Qnum q)) in *. set (D := inject_Z (Zpos (Qden q))) in *.
  assert (Num.pow2 la == Num.pow2 (la - lb) * Num.pow2 lb) as Ek.
  { rewrite <- pow2_add. now replace (la - lb + lb)%Z with la by lia. }
  pose proof (pow2_pos (la - lb)) as Hk. pose proof (pow2_pos lb) as Hb.
  pose proof (pow2_succ (la - lb)) as Es.
  assert (Num.pow2 (la - lb) == 2 * Num.pow2 (la - lb - 1)) as Ep.
  { rewrite <- pow2_succ. now replace (la - lb - 1 + 1)%Z with (la - lb)%Z by lia. }
  set (P := Num.pow2 (la - lb)) in *. set (PA := Num.pow2 la) in *. set (PD := Num.pow2 lb) in *.
  destruct (Qle_bool P q) eqn:Ht.
  - apply Qle_bool_iff in Ht. split; [assumption|].
    rewrite Es. apply Qnot_le_lt. intros Hc.
    assert (2 * P * PD <= q * D) by nra. nra.
  - assert (q < P) as Hlt.
    { apply Qnot_le_lt. intros Hc. apply Qle_bool_iff in Hc. congruence. }
    replace (la - lb - 1 + 1)%Z with (la - lb)%Z by lia. fold P.
    split; [|assumption].
    set (P' := Num.pow2 (la - lb - 1)) in *.
    apply Qnot_lt_le. intros Hc.
    assert (q * D < P' * (2 * PD)) by nra. nra.
Qed.

Lemma exponent_spec q :
  0 < q ->
  (-1074 <= Num.exponent q)%Z
  /\ q < Num.pow2 (Num.exponent q + 53)
  /\ ((-1074 < Num.exponent q)%Z -> Num.pow2 (Num.exponent q + 52) <= q).
Proof.
  intros Hq. unfold Num.exponent.
  assert (Qabs q = q) as ->.
  { destruct q as [[|n|n] d]; try reflexivity. now unfold Qlt in Hq. }
  destruct (ilog2_spec q Hq) as (Hl & Hu).
  set (L := Num.ilog2 q) in *.
  split; [lia|]. split.
  - apply (Qlt_le_trans _ _ _ Hu). apply pow2_le. lia.
  - intros H. replace (Z.max (-1074) (L - 52) + 52)%Z with L by lia. exact Hl.
Qed.

Lemma exponent_opp q : Num.exponent (- q) = Num.exponent q.
Proof.
  unfold Num.exponent. f_equal. f_equal. f_equal.
  destruct q as [n d]. unfold Qabs, Qopp. cbn. now rewrite Z.abs_opp.
Qed.

Lemma nearest_opp q : Num.nearest (- q) == - Num.nearest q.
Proof.
  unfold Num.nearest. rewrite exponent_opp. cbv zeta.
  rewrite (round_compat (- q / Num.pow2 (Num.exponent q)) (- (q / Num.pow2 (Num.exponent q))))
    by (field; apply Qnot_eq_sym, Qlt_not_eq, pow2_pos).
  rewrite round_opp, inject_Z_opp. ring.
Qed.

Lemma nearest_nonneg q : 0 <= q -> 0 <= Num.nearest q.
Proof.
  intros H. unfold Num.nearest. cbv zeta.
  pose proof (pow2_pos (Num.exponent q)) as Hp.
  apply Qmult_le_0_compat; [|lra].
  change 0 with (inject_Z 0). rewrite <- Zle_Qle. apply round_ge_int.
  change (inject_Z 0) with 0. apply Qle_shift_div_l; [assumption|lra].
Qed.

Lemma nearest_nonpos q : q <= 0 -> Num.nearest q <= 0.
Proof.
  intros H. assert (0 <= Num.nearest (- q)) as Hn by (apply nearest_nonneg; lra).
  rewrite nearest_opp in Hn. lra.
Qed.

Lemma pow2_53 e : Num.pow2 (e + 53) == inject_Z (2 ^ 53) * Num.pow2 e.
Proof. rewrite Z.add_comm, pow2_add. now rewrite <- pow2_inject by lia. Qed.

Lemma pow2_52 e : Num.pow2 (e + 52) == inject_Z (2 ^ 52) * Num.pow2 e.
Proof. rewrite Z.add_comm, pow2_add. now rewrite <- pow2_inject by lia. Qed.

Lemma nearest_mono_pos x y : 0 < x -> x <= y -> Num.nearest x <= Num.nearest y.
Proof.
  intros Hx Hxy. assert (0 < y) as Hy by lra.
  destruct (exponent_spec x Hx) as (Hminx & Hux & Hlx).
  destruct (exponent_spec y Hy) as (Hminy & Huy & Hly).
  unfold Num.nearest. cbv zeta.
  set (ex := Num.exponent x) in *. set (ey := Num.exponent y) in *.
  pose proof (pow2_pos ex) as Hpx. pose proof (pow2_pos ey) as Hpy.
  assert (ex <= ey)%Z as Hle.
  { destruct (Z_le_gt_dec ex ey) as [|Hgt]; [assumption|exfalso].
    specialize (Hlx ltac:(lia)).
    assert (Num.pow2 (ey + 53) <= Num.pow2 (ex + 52)) by (apply pow2_le; lia).
    lra. }
  destruct (Z.eq_dec ex ey) as [E|Hne].
  - rewrite E. apply Qmult_le_compat_r; [|lra].
    rewrite <- Zle_Qle. apply round_mono.
    apply Qmult_le_compat_r; [assumption|].
    apply Qlt_le_weak, Qinv_lt_0_compat. assumption.
  - specialize (Hly ltac:(lia)).
    apply Qle_trans with (Num.pow2 (ex + 53)).
    + rewrite pow2_53. apply Qmult_le_compat_r; [|lra].
      rewrite <- Zle_Qle. apply round_le_int.
      apply Qle_shift_div_r; [assumption|]. rewrite <- pow2_53. lra.
    + apply Qle_trans with (Num.pow2 (ey + 52)); [apply pow2_le; lia|].
      rewrite pow2_52. apply Qmult_le_compat_r; [|lra].
      rewrite <- Zle_Qle. apply round_ge_int.
      apply Qle_shift_div_l; [assumption|]. rewrite <- pow2_52. lra.
Qed.

Lemma nearest_mono x y : x <= y -> Num.nearest x <= Num.nearest y.
Proof.
  intros H.
  destruct (Qlt_le_dec 0 x) as [Hx|Hx]; [now apply nearest_mono_pos|].
  destruct (Qlt_le_dec y 0) as [Hy|Hy].
  - assert (Num.nearest (- y) <= Num.nearest (- x)) as Hn
        by (apply nearest_mono_pos; lra).
    rewrite !nearest_opp in Hn. lra.
  - apply Qle_trans with 0; [now apply nearest_nonpos|now apply nearest_nonneg].
Qed.

Lemma binary64_compat x y : x == y -> Num.binary64 x = Num.binary64 y.
Proof. intros E. unfold Num.binary64. now rewrite (Qred_complete x y E). Qed.

Lemma binary64_mono x y : x <= y -> Num.binary64 x <= Num.binary64 y.
Proof.
  intros H. unfold Num.binary64.
  assert (Num.nearest (Qred x) <= Num.nearest (Qred y)) as Hn.
  { apply nearest_mono.
    pose proof (Qred_correct x). pose proof (Qred_correct y).
    set (x' := Qred x) in *. set (y' := Qred y) in *. lra. }
  pose proof (Qred_correct (Num.nearest (Qred x))).
  pose proof (Qred_correct (Num.nearest (Qred y))).
  set (a := Num.nearest (Qred x)) in *. set (b := Num.nearest (Qred y)) in *.
  set (a' := Qred a) in *. set (b' := Qred b) in *. lra.
Qed.

Lemma binary64_opp x : Num.binary64 (- x) == - Num.binary64 x.
Proof.
  unfold Num.binary64. rewrite Qred_opp.
  pose proof (nearest_opp (Qred x)).
  pose proof (Qred_correct (Num.nearest (- Qred x))).
  pose proof (Qred_correct (Num.nearest (Qred x))).
  set (a := Num.nearest (Qred x)) in *. set (b := Num.nearest (- Qred x)) in *.
  set (a' := Qred a) in *. set (b' := Qred b) in *. lra.
Qed.

(** The integers from 1 on round to floats from 1 on. *)
Lemma binary64_count n : (1 <= n)%Z -> 1 <= Num.binary64 (inject_Z n).
Proof.
  intros H. change 1 with (Num.binary64 1) at 1. apply binary64_mono.
  change 1 with (inject_Z 1). now rewrite <- Zle_Qle.
Qed.

End Rounding.

(** ** The sentiment aggregator *)

Lemma lookup_weight lbl : lookup lbl sentiment_weights = Spec.weight lbl.
Proof.
  unfold sentiment_weights, Spec.weight. cbn [lookup].
  now rewrite !(String.eqb_sym _ lbl).
Qed.

Lemma method_lower_label entry sent :
  method_lower (sentiment_of entry) = Ok sent -> sent = Spec.label entry.
Proof.
  unfold Spec.label. destruct (sentiment_of entry); cbn; congruence.
Qed.

(** One turn of the loop adds the entry's contribution, counts its label and
    updates the key entry. *)
Lemma loop_body_tally i e st st' :
  loop_body i e st = Ok st' ->
  weighted_scores st'
  = (weighted_scores st
     ++ match Spec.contribution e with Some x => [x] | None => [] end)%list
  /\ positive (counts st')
     = positive (counts st) + (if (Spec.label e =? "positive")%string then 1 else 0)
  /\ negative (counts st')
     = negative (counts st) + (if (Spec.label e =? "negative")%string then 1 else 0)
  /\ neutral (counts st')
     = neutral (counts st) + (if (Spec.label e =? "neutral")%string then 1 else 0)
  /\ select_key i e (key_entry st) = Ok (key_entry st').
Proof.
  unfold loop_body. intros H.
  destruct (method_lower (sentiment_of e)) as [sent|] eqn:Hl; [|discriminate].
  apply method_lower_label in Hl. subst sent. cbn [bind] in H.
  unfold tally in H. rewrite lookup_weight in H.
  unfold Spec.contribution.
  destruct (select_key i e (key_entry st)) as [key'|]; [|
    destruct (Spec.weight (Spec.label e)); discriminate].
  revert H. unfold Spec.weight, increment.
  generalize (Spec.label e). intros lbl.
  destruct (String.eqb_spec lbl "positive") as [->|];
    [|destruct (String.eqb_spec lbl "negative") as [->|];
      [|destruct (String.eqb_spec lbl "neutral") as [->|]]];
    cbn; intros H; injection H as <-; cbn;
    rewrite ?app_nil_r; repeat split; try lia;
    destruct (get "sentiment_confidence" e); reflexivity.
Qed.

Lemma loop_tally entries : forall i st st',
  loop i entries st = Ok st' ->
  weighted_scores st' = (weighted_scores st ++ Spec.contributions entries)%list
  /\ positive (counts st') = positive (counts st) + Spec.count "positive" entries
  /\ negative (counts st') = negative (counts st) + Spec.count "negative" entries
  /\ neutral (counts st') = neutral (counts st) + Spec.count "neutral" entries.
Proof.
  induction entries as [|e rest IH]; cbn [loop]; intros i st st' H.
  - injection H as <-. cbn. rewrite app_nil_r. repeat split; lia.
  - destruct (loop_body i e st) as [st1|] eqn:Hb; [|discriminate].
    cbn [bind] in H.
    apply loop_body_tally in Hb. destruct Hb as (Hs & Hp & Hn & Hu & _).
    apply IH in H. destruct H as (Hs' & Hp' & Hn' & Hu').
    cbn [Spec.contributions Spec.count].
    rewrite Hs', Hs, Hp', Hp, Hn', Hn, Hu', Hu.
    rewrite <- app_assoc.
    repeat split; try lia.
    now destruct (Spec.contribution e).
Qed.

Lemma net_score_of_mean scores : net_score_of scores = Spec.rounded_mean scores.
Proof. now destruct scores. Qed.

(** The three labels partition the scores, with both thresholds inclusive. *)
Lemma bias_thresholds (x : Q) :
  (bias_of x = "Bullish tilt" <-> (Spec.threshold <= x)%Q)
  /\ (bias_of x = "Bearish tilt" <-> (x <= - Spec.threshold)%Q)
  /\ (bias_of x = "Mixed/neutral bias"
      <-> (- Spec.threshold < x < Spec.threshold)%Q).
Proof.
  unfold bias_of. fold Spec.threshold.
  assert (0 < Spec.threshold)%Q as Hpos by reflexivity.
  set (t := Spec.threshold) in *.
  destruct (Qle_bool t x) eqn:Hup.
  - apply Qle_bool_iff in Hup.
    repeat split; intros; try discriminate; try lra.
  - assert (~ (t <= x)%Q) as Hlt
        by (intros Hc; apply Qle_bool_iff in Hc; congruence).
    destruct (Qle_bool x (- t)) eqn:Hdown.
    + apply Qle_bool_iff in Hdown.
      repeat split; intros; try discriminate; try lra.
    + assert (~ (x <= - t)%Q) as Hgt
          by (intros Hc; apply Qle_bool_iff in Hc; congruence).
      repeat split; intros; try discriminate; try lra.
Qed.

Lemma unknown_contribution e :
  Spec.recognized e = false -> Spec.contribution e = None.
Proof.
  unfold Spec.recognized, Spec.contribution.
  now destruct (Spec.weight (Spec.label e)).
Qed.

Lemma unknown_contributions entries :
  (forall e, In e entries -> Spec.recognized e = false) ->
  Spec.contributions entries = [].
Proof.
  induction entries as [|e rest IH]; intros H; [reflexivity|].
  cbn [Spec.contributions].
  rewrite unknown_contribution by (apply H; now left).
  apply IH. intros e' He'. apply H. now right.
Qed.

Lemma summarize_inv py now e rest r :
  summarize_news_sentiment py now (e :: rest) = Ok r ->
  exists st key_line,
    loop 0 (e :: rest) loop_init = Ok st
    /\ key_line_of py now (key_entry st) = Ok key_line
    /\ r = Some (summary_line_of (counts st) (net_score_of (weighted_scores st)),
                 key_line,
                 if key_truthy (key_entry st) then key_entry st else None).
Proof.
  unfold summarize_news_sentiment. intros H.
  destruct (loop 0 (e :: rest) loop_init) as [st|]; [|discriminate].
  cbn [bind] in H.
  destruct (key_line_of py now (key_entry st)) as [key_line|] eqn:Hk; [|discriminate].
  cbn [bind] in H. injection H as <-.
  now exists st, key_line.
Qed.

(** C6, as amended.  Whenever the aggregator returns for a non-empty list,
    the net score it computed and printed is the mean in binary64
    arithmetic (the sum rounded to the nearest float, over the count, as
    [statistics.fmean] computes it), over the entries with a recognised
    label, of weight times confidence (the weight alone without a numeric
    confidence; weights +1, -1, 0 for positive, negative, neutral); it is 0
    when every entry is unknown; the bias is "Bullish tilt" exactly from the
    float 0.2 up, "Bearish tilt" exactly from the float -0.2 down and
    "Mixed/neutral bias" strictly between; and the three sample entries
    give the float 0.20000000000000004, next above 0.2, which is printed
    as +0.20, and "Bullish tilt". *)
Theorem net_score_is_weighted_mean py now entries r :
  entries <> [] ->
  summarize_news_sentiment py now entries = Ok r ->
  (exists st key_line key,
      loop 0 entries loop_init = Ok st
      /\ weighted_scores st = Spec.contributions entries
      /\ net_score_of (weighted_scores st) = Spec.net_score entries
      /\ r = Some (summary_line_of (counts st) (Spec.net_score entries),
                   key_line, key))
  /\ ((forall e, In e entries -> Spec.recognized e = false) ->
      Spec.net_score entries = 0%Q)
  /\ (forall x : Q,
        (bias_of x = "Bullish tilt" <-> (Spec.threshold <= x)%Q)
        /\ (bias_of x = "Bearish tilt" <-> (x <= - Spec.threshold)%Q)
        /\ (bias_of x = "Mixed/neutral bias"
            <-> (- Spec.threshold < x < Spec.threshold)%Q))
  /\ Spec.contributions Sample.entries
     = [1 * Sample.float_0_8; -1 * Sample.float_0_2; 0]%Q
  /\ Spec.net_score Sample.entries = (7205759403792795 # 36028797018963968)%Q
  /\ Spec.threshold = (3602879701896397 # 18014398509481984)%Q
  /\ Num.format_fixed true 2 (Spec.net_score Sample.entries) = "+0.20"
  /\ bias_of (Spec.net_score Sample.entries) = "Bullish tilt".
Proof.
  intros Hne H.
  destruct entries as [|e rest]; [now elim Hne|].
  apply summarize_inv in H. destruct H as (st & key_line & Hloop & _ & ->).
  pose proof (loop_tally _ _ _ _ Hloop) as (Hs & _). cbn [loop_init weighted_scores app] in Hs.
  split; [|split; [|split; [|repeat split; vm_compute; reflexivity]]].
  - exists st, key_line, (if key_truthy (key_entry st) then key_entry st else None).
    unfold Spec.net_score. rewrite <- Hs.
    split; [exact Hloop|]. split; [reflexivity|].
    split; [apply net_score_of_mean|].
    now rewrite (net_score_of_mean (weighted_scores st)).
  - intros Hunk. unfold Spec.net_score. now rewrite unknown_contributions.
  - intros x. apply bias_thresholds.
Qed.

Lemma net_score_is_weighted_mean_witness :
  exists st key_line key,
    loop 0 Sample.entries loop_init = Ok st
    /\ weighted_scores st = Spec.contributions Sample.entries
    /\ net_score_of (weighted_scores st) = Spec.net_score Sample.entries
    /\ Some ("Bullish tilt: +1 / -1 / =1 (net score +0.20).",
             "Key headline [POSITIVE] Earnings beat forecasts (published 1 hour ago)",
             Some (0%nat, nth 0 Sample.entries []))
       = Some (summary_line_of (counts st) (Spec.net_score Sample.entries),
               key_line, key).
Proof.
  refine (proj1 (net_score_is_weighted_mean Ref.py Sample.now Sample.entries _ _ _)).
  - discriminate.
  - vm_compute. reflexivity.
Defined.

(** C6, the claim as stated fails: the net score is a rounded mean, not the
    arithmetic mean, and the comparison with 0.2 is one of floats.  For the
    sample the arithmetic mean of 0.8, -0.2 and 0 is 0.2, while the
    aggregator computes the float next above the float 0.2.  A positive
    entry of confidence 0.6 and a negative one of confidence 0.2 have the
    arithmetic mean 0.2, on the threshold, while the aggregator computes
    the float next below the float 0.2, 0.19999999999999998, and returns
    "Mixed/neutral bias" with the score printed as +0.20. *)
Lemma rounded_mean_misses_threshold :
  (Spec.mean [0.8; -0.2; 0] == 0.2)%Q
  /\ ~ (net_score_of (Spec.contributions Sample.entries) == 0.2)%Q
  /\ ~ (net_score_of (Spec.contributions Sample.entries) == Num.binary64 0.2)%Q
  /\ ~ (net_score_of (Spec.contributions Sample.entries)
        == Spec.mean (Spec.contributions Sample.entries))%Q
  /\ (Spec.mean [0.6; -0.2] == 0.2)%Q
  /\ net_score_of (Spec.contributions Sample.on_threshold)
     = (7205759403792793 # 36028797018963968)%Q
  /\ summarize_news_sentiment Ref.py Sample.now Sample.on_threshold
     = Ok (Some ("Mixed/neutral bias: +1 / -1 / =0 (net score +0.20).",
                 "Key headline [POSITIVE] Loan growth tops guidance",
                 Some (0%nat, nth 0 Sample.on_threshold []))).
Proof.
  split; [reflexivity|].
  split; [vm_compute; discriminate|].
  split; [vm_compute; discriminate|].
  split; [vm_compute; discriminate|].
  split; [reflexivity|].
  split; vm_compute; reflexivity.
Qed.

(** The kernel's binary64 arithmetic gives the same floats: the literals,
    the two net scores above, a tie and a subnormal quotient. *)
Module Binary64.
Import PrimFloat.

#[warnings="-inexact-float"]
Lemma agrees_with_primitive_floats :
  Derived.float_value 0.2 = Some (Num.binary64 0.2)
  /\ Derived.float_value 0.8 = Some Sample.float_0_8
  /\ Derived.float_value 0.6 = Some Sample.float_0_6
  /\ Derived.float_value ((0.8 + -0.2 + 0) / 3)
     = Some (net_score_of (Spec.contributions Sample.entries))
  /\ Derived.float_value ((0.6 + -0.2) / 2)
     = Some (net_score_of (Spec.contributions Sample.on_threshold))
  /\ Derived.float_value (9007199254740993 / 3)
     = Some (Num.binary64 (Num.binary64 9007199254740993 / Num.binary64 3))
  /\ Derived.float_value (1e-310 / 3)
     = Some (Num.binary64 (Num.binary64 (1 / 10 ^ 310) / Num.binary64 3)).
Proof. repeat split; vm_compute; reflexivity. Qed.

End Binary64.

Lemma unknown_label_unrecognized e :
  Spec.unknown_label e -> Spec.recognized e = false.
Proof.
  intros (s & Hs & Hw). unfold Spec.recognized, Spec.label.
  now rewrite Hs, Hw.
Qed.

Lemma unknown_label_count lbl entries :
  Spec.weight lbl <> None ->
  Forall Spec.unknown_label entries ->
  Spec.count lbl entries = 0.
Proof.
  intros Hl. induction 1 as [|e rest He _ IH]; [reflexivity|].
  cbn [Spec.count]. rewrite IH.
  destruct He as (s & Hs & Hw). unfold Spec.label. rewrite Hs.
  destruct (String.eqb_spec (Str.lower s) lbl) as [E|_]; [|reflexivity].
  subst lbl. contradiction.
Qed.

(** An entry with no timestamp never replaces a key entry that is a
    non-empty dictionary. *)
Lemma loop_body_keeps_key i e st j e0 :
  key_entry st = Some (j, e0) ->
  dict_truthy e0 = true ->
  Spec.unknown_label e ->
  Spec.undated e ->
  exists st', loop_body i e st = Ok st' /\ key_entry st' = Some (j, e0).
Proof.
  intros Hk Ht (s & Hs & _) Hu. unfold loop_body.
  rewrite Hs. cbn [method_lower bind].
  destruct (tally e (Str.lower s) st) as [c sc].
  unfold select_key. rewrite Hk, Ht. unfold Spec.undated in Hu. rewrite Hu.
  cbn [truthy String.eqb negb bind].
  eexists. split; reflexivity.
Qed.

Lemma loop_keeps_key rest : forall i st j e0,
  key_entry st = Some (j, e0) ->
  dict_truthy e0 = true ->
  Forall Spec.unknown_label rest ->
  Forall Spec.undated rest ->
  exists st', loop i rest st = Ok st' /\ key_entry st' = Some (j, e0).
Proof.
  induction rest as [|e rest IH]; intros i st j e0 Hk Ht Hl Hu; cbn [loop].
  - now exists st.
  - inversion Hl as [|? ? Hle Hlr]; inversion Hu as [|? ? Hue Hur]; subst.
    destruct (loop_body_keeps_key i e st j e0 Hk Ht Hle Hue) as (st1 & -> & Hk1).
    cbn [bind]. now apply IH.
Qed.

(** The first entry becomes the key entry. *)
Lemma loop_body_first_key e0 :
  Spec.unknown_label e0 ->
  exists st, loop_body 0 e0 loop_init = Ok st /\ key_entry st = Some (0%nat, e0).
Proof.
  intros (s & Hs & _). unfold loop_body.
  rewrite Hs. cbn [method_lower bind].
  destruct (tally e0 (Str.lower s) loop_init) as [c sc].
  cbn. eexists. split; reflexivity.
Qed.

(** C7, as amended.  For a non-empty list whose first entry is a non-empty
    dictionary with a string as headline text, in which every entry has an
    unrecognised or absent sentiment label and no derivable timestamp, the
    aggregator returns the first entry as key entry (never [None]), with
    the counts +0/-0/=0 and the net score +0.00 in the summary line. *)
Theorem key_entry_is_first_entry py now e0 rest text :
  dict_truthy e0 = true ->
  headline_text e0 = Ok text ->
  Forall Spec.unknown_label (e0 :: rest) ->
  Forall Spec.undated (e0 :: rest) ->
  exists key_line,
    summarize_news_sentiment py now (e0 :: rest)
    = Ok (Some ("Mixed/neutral bias: +0 / -0 / =0 (net score +0.00).",
                key_line, Some (0%nat, e0))).
Proof.
  intros Ht Htext Hl Hu.
  inversion Hl as [|? ? Hl0 Hlr]; inversion Hu as [|? ? Hu0 Hur]; subst.
  destruct (loop_body_first_key e0 Hl0) as (st1 & Hb & Hk1).
  destruct (loop_keeps_key rest 1 st1 0%nat e0 Hk1 Ht Hlr Hur) as (st & Hloop & Hk).
  assert (loop 0 (e0 :: rest) loop_init = Ok st) as Hall
      by (cbn [loop]; now rewrite Hb).
  pose proof (loop_tally _ _ _ _ Hall) as (Hs & Hp & Hn & Hz).
  rewrite (unknown_contributions (e0 :: rest)) in Hs
    by (intros e He; apply unknown_label_unrecognized;
        now apply (proj1 (Forall_forall _ _) Hl)).
  rewrite unknown_label_count in Hp, Hn, Hz by (assumption || discriminate).
  cbn in Hs, Hp, Hn, Hz.
  unfold summarize_news_sentiment. rewrite Hall. cbn [bind].
  unfold key_line_of. rewrite Hk, Ht, Htext. cbn [bind].
  destruct Hl0 as (s0 & Hs0 & _). rewrite Hs0. cbn [method_upper bind].
  unfold summary_line_of. rewrite Hs, Hp, Hn, Hz.
  cbn [key_truthy]. rewrite Ht.
  eexists. reflexivity.
Qed.

Lemma key_entry_is_first_entry_witness :
  exists key_line,
    summarize_news_sentiment Ref.py Sample.now Sample.unlabelled
    = Ok (Some ("Mixed/neutral bias: +0 / -0 / =0 (net score +0.00).",
                key_line, Some (0%nat, [("title", VStr "First headline")]))).
Proof.
  refine (key_entry_is_first_entry Ref.py Sample.now
            [("title", VStr "First headline")]
            [[("title", VStr "Second headline"); ("sentiment", VStr "mixed")]]
            "First headline" _ _ _ _).
  - reflexivity.
  - reflexivity.
  - repeat constructor.
    + exists "unknown". split; reflexivity.
    + exists "mixed". split; reflexivity.
  - repeat constructor.
Defined.

(** C7, the claim as stated fails: the list holding one empty dictionary is
    non-empty, its entry has no sentiment label and no timestamp, and the
    aggregator returns [None] as key entry (and an empty key line). *)
Lemma empty_entry_gives_no_key_entry :
  Forall Spec.unknown_label [[]]
  /\ Forall Spec.undated [[]]
  /\ summarize_news_sentiment Ref.py Sample.now [[]]
     = Ok (Some ("Mixed/neutral bias: +0 / -0 / =0 (net score +0.00).", "", None)).
Proof.
  split; [|split; [|reflexivity]]; repeat constructor.
  exists "unknown". split; reflexivity.
Qed.

(** ** The market blocks *)

Lemma bind_ok {A : Type} (c : result A) : (x <- c ;; Ok x) = c.
Proof. now destruct c. Qed.

(** A series is written element by element, in the order of the list. *)
Lemma dumps_series_elements py (series : list Q) :
  dumps_series py series
  = "[" ++ Str.join ", " (List.map (float_repr py) series) ++ "]".
Proof.
  unfold dumps_series. cbn [json_dumps]. rewrite map_map. reflexivity.
Qed.

Lemma market_block_snapshot py w snaps symbol coin data lines :
  lookup symbol (SYMBOL_TO_COIN (config w)) = Some coin ->
  lookup coin snaps = Some data ->
  market_block py w snaps symbol = Ok lines ->
  exists news,
    news_lines py w (get_cached_news w coin 5) = Ok news
    /\ lines = snapshot_lines py w coin data +++ news +++ [separator].
Proof.
  unfold market_block. intros -> -> H.
  destruct (news_lines py w (get_cached_news w coin 5)) as [news|]; [|discriminate].
  injection H as <-. now exists news.
Qed.

Lemma market_block_missing py w snaps symbol coin :
  lookup symbol (SYMBOL_TO_COIN (config w)) = Some coin ->
  lookup coin snaps = None ->
  market_block py w snaps symbol = Ok [].
Proof. unfold market_block. now intros -> ->. Qed.

(** The blocks are the per-symbol blocks, concatenated in the order of the
    symbols. *)
Lemma market_blocks_per_symbol py w snaps symbols : forall blocks,
  market_blocks py w snaps symbols = Ok blocks ->
  exists per_symbol,
    Forall2 (fun symbol block => market_block py w snaps symbol = Ok block)
            symbols per_symbol
    /\ blocks = List.concat per_symbol.
Proof.
  induction symbols as [|symbol rest IH]; cbn [market_blocks]; intros blocks H.
  - injection H as <-. exists []. split; [constructor|reflexivity].
  - destruct (market_block py w snaps symbol) as [block|] eqn:Hb; [|discriminate].
    cbn [bind] in H.
    destruct (market_blocks py w snaps rest) as [more|]; [|discriminate].
    injection H as <-.
    destruct (IH more eq_refl) as (per_symbol & Hall & ->).
    exists (block :: per_symbol). split; [now constructor|reflexivity].
Qed.

(** A symbol whose block is empty can be left out of the list. *)
Lemma market_blocks_skip py w snaps symbol pre post :
  market_block py w snaps symbol = Ok [] ->
  market_blocks py w snaps (pre ++ symbol :: post)
  = market_blocks py w snaps (pre ++ post).
Proof.
  intros Hempty. induction pre as [|x pre IH]; cbn [app market_blocks].
  - rewrite Hempty. cbn [bind app]. apply bind_ok.
  - now rewrite IH.
Qed.

(** The blocks do not depend on the list of configured symbols itself. *)
Lemma market_blocks_with_symbols py w snaps configured symbols :
  market_blocks py (with_symbols w configured) snaps symbols
  = market_blocks py w snaps symbols.
Proof. reflexivity. Qed.

Lemma create_trading_prompt_inv py w st snaps doc :
  create_trading_prompt py w st snaps = Ok doc ->
  exists blocks open_positions,
    market_blocks py w snaps (SYMBOLS (config w)) = Ok blocks
    /\ positions_block py st snaps = Ok open_positions
    /\ doc = Str.join newline
               (preamble_lines py w st
                +++ [ "Below is a variety of state data, price data, and predictive signals so you can discover alpha.";
                      ordering_disclaimer ]
                +++ market_heading_lines py w
                +++ blocks
                +++ account_lines w st
                +++ open_positions
                +++ [closing_line]).
Proof.
  unfold create_trading_prompt, prompt_lines. intros H.
  destruct (market_blocks py w snaps (SYMBOLS (config w))) as [blocks|];
    [|discriminate].
  cbn [bind] in H.
  destruct (positions_block py st snaps) as [open_positions|]; [|discriminate].
  cbn [bind] in H. injection H as <-.
  now exists blocks, open_positions.
Qed.

(** Two worlds with the same reads give the same blocks: a block reads the
    clock, [config] and the cached news of its coin. *)
Lemma market_blocks_same_reads py snaps clk refresh1 refresh2 cfg news1 news2
      tz1 tz2 symbols :
  (forall symbol coin,
      In symbol symbols ->
      lookup symbol (SYMBOL_TO_COIN cfg) = Some coin ->
      lookup coin snaps <> None ->
      news1 coin 5 = news2 coin 5) ->
  market_blocks py
    {| clock := clk; get_last_refresh_time := refresh1;
       get_cached_news := news1; config := cfg; local_utcoffset := tz1 |}
    snaps symbols
  = market_blocks py
      {| clock := clk; get_last_refresh_time := refresh2;
         get_cached_news := news2; config := cfg; local_utcoffset := tz2 |}
      snaps symbols.
Proof.
  induction symbols as [|symbol rest IH]; intros Hnews; [reflexivity|].
  cbn [market_blocks].
  rewrite IH by (intros s c Hin; apply Hnews; now right).
  f_equal. unfold market_block. cbn [config get_cached_news].
  destruct (lookup symbol (SYMBOL_TO_COIN cfg)) as [coin|] eqn:Hc; [|reflexivity].
  destruct (lookup coin snaps) as [data|] eqn:Hd; [|reflexivity].
  rewrite (Hnews symbol coin) by (try (now left); congruence).
  reflexivity.
Qed.

(** The refresh line reads the cache's refresh time and, for a naive one,
    the system time zone. *)
Lemma market_heading_lines_same_reads py clk refresh cfg news1 news2 tz1 tz2 :
  (forall t, tz1 t = tz2 t) ->
  market_heading_lines py
    {| clock := clk; get_last_refresh_time := refresh;
       get_cached_news := news1; config := cfg; local_utcoffset := tz1 |}
  = market_heading_lines py
      {| clock := clk; get_last_refresh_time := refresh;
         get_cached_news := news2; config := cfg; local_utcoffset := tz2 |}.
Proof.
  intros Htz. unfold market_heading_lines, news_refresh_str, refresh_instant.
  cbn [get_last_refresh_time local_utcoffset].
  destruct refresh as [iso|]; [|reflexivity].
  destruct (iso =? "")%string; [reflexivity|].
  destruct (fromisoformat py _) as [[t [offset|]]|]; cbn [utcoffset wall];
    try reflexivity.
  now rewrite Htz.
Qed.

(** C2, as amended.  For a symbol with a snapshot, the block starts with the
    header, the indicator line and the intraday header, followed by six
    named series, [mid_prices], [ema20], [macd], [rsi7], [rsi14] and [vwap]
    in this order, each written in full as an array in the order of its
    list, and then by the longer-term context. *)
Theorem intraday_block_has_six_series py w snaps symbol coin data lines :
  lookup symbol (SYMBOL_TO_COIN (config w)) = Some coin ->
  lookup coin snaps = Some data ->
  market_block py w snaps symbol = Ok lines ->
  exists indicators tail,
    lines
    = [ coin ++ " STOCK SNAPSHOT";
        indicators;
        "  Intraday series (" ++ Str.of_int (interval_minutes w)
          ++ "-minute, oldest → latest):" ]
      +++ [ Spec.series_line (float_repr py) "mid_prices" (i_mid_prices (intraday_series data));
            Spec.series_line (float_repr py) "ema20" (i_ema20 (intraday_series data));
            Spec.series_line (float_repr py) "macd" (i_macd (intraday_series data));
            Spec.series_line (float_repr py) "rsi7" (i_rsi7 (intraday_series data));
            Spec.series_line (float_repr py) "rsi14" (i_rsi14 (intraday_series data));
            Spec.series_line (float_repr py) "vwap" (i_vwap (intraday_series data)) ]
      +++ "  Longer-term context (1-hour timeframe):" :: tail.
Proof.
  intros Hc Hd H.
  destruct (market_block_snapshot _ _ _ _ _ _ _ Hc Hd H) as (news & _ & ->).
  unfold snapshot_lines, intraday_series_lines, long_term_lines, Spec.series_line.
  rewrite !dumps_series_elements.
  eexists. eexists. reflexivity.
Qed.

Lemma intraday_block_has_six_series_witness :
  exists indicators tail,
    [ "BBCA STOCK SNAPSHOT";
      "- Price: 1050.000, EMA20: 1020.000, MACD: 0.500, RSI(7): N/A";
      "  Intraday series (5-minute, oldest → latest):";
      "    mid_prices: [1000.0, 1010.5, 1050.0]";
      "    ema20: [1000.0, 1010.5, 1050.0]";
      "    macd: [0.5, 0.25]";
      "    rsi7: [55.0, 60.0]";
      "    rsi14: [50.0, 52.0]";
      "    vwap: [1000.0, 1010.5, 1050.0]";
      "  Longer-term context (1-hour timeframe):";
      "    EMA20 vs EMA50: 1000.000 / 990.000";
      "    ATR3 vs ATR14: 12.000 / N/A";
      "    Volume (current/average): 100000.000 / 90000.000";
      "    MACD series: [0.5]";
      "    RSI14 series: [51.0]";
      "    VWAP series: [1001.0]";
      separator;
      "  Recent news sentiment:";
      "    - Bullish tilt: +1 / -1 / =1 (net score +0.20).";
      "    - Key headline [POSITIVE] Earnings beat forecasts (published 1 hour ago)";
      "    - [NEGATIVE (confidence 0.20)] Regulator opens probe — desk";
      "    - [NEUTRAL] Dividend date set — desk";
      separator ]
    = [ "BBCA" ++ " STOCK SNAPSHOT";
        indicators;
        "  Intraday series (" ++ Str.of_int (interval_minutes Sample.world)
          ++ "-minute, oldest → latest):" ]
      +++ [ Spec.series_line Ref.float_repr "mid_prices" Sample.series;
            Spec.series_line Ref.float_repr "ema20" Sample.series;
            Spec.series_line Ref.float_repr "macd" [0.5; 0.25]%Q;
            Spec.series_line Ref.float_repr "rsi7" [55; 60]%Q;
            Spec.series_line Ref.float_repr "rsi14" [50; 52]%Q;
            Spec.series_line Ref.float_repr "vwap" Sample.series ]
      +++ "  Longer-term context (1-hour timeframe):" :: tail.
Proof.
  refine (intraday_block_has_six_series Ref.py
            Sample.world Sample.market_snapshots
            "BBCA.JK" "BBCA" Sample.snapshot _ _ _ _).
  - reflexivity.
  - reflexivity.
  - vm_compute. reflexivity.
Defined.

(** C2, the claim as stated fails: the intraday block of the sample snapshot
    holds six series, not five. *)
Lemma intraday_block_is_not_five_series :
  match market_block Ref.py Sample.world Sample.market_snapshots "BBCA.JK" with
  | Ok lines => firstn 7 (skipn 2 lines)
  | Raise _ => []
  end
  = [ "  Intraday series (5-minute, oldest → latest):";
      "    mid_prices: [1000.0, 1010.5, 1050.0]";
      "    ema20: [1000.0, 1010.5, 1050.0]";
      "    macd: [0.5, 0.25]";
      "    rsi7: [55.0, 60.0]";
      "    rsi14: [50.0, 52.0]";
      "    vwap: [1000.0, 1010.5, 1050.0]" ]
  /\ List.length (intraday_series_lines Ref.py (intraday_series Sample.snapshot))
     <> 5%nat.
Proof. split; [reflexivity | discriminate]. Qed.

(** C8.  A configured symbol whose coin is absent from the snapshot mapping
    contributes no line at all, and the document is the one composed
    without that symbol in the configuration: the missing snapshot does not
    abort it and changes nothing else. *)
Theorem missing_snapshot_is_skipped py w st snaps pre symbol post coin :
  SYMBOLS (config w) = (pre ++ symbol :: post)%list ->
  lookup symbol (SYMBOL_TO_COIN (config w)) = Some coin ->
  lookup coin snaps = None ->
  market_block py w snaps symbol = Ok []
  /\ create_trading_prompt py w st snaps
     = create_trading_prompt py (with_symbols w (pre ++ post)) st snaps.
Proof.
  intros Hsym Hc Hd.
  pose proof (market_block_missing py w snaps symbol coin Hc Hd) as Hempty.
  split; [exact Hempty|].
  unfold create_trading_prompt, prompt_lines.
  rewrite Hsym, (market_blocks_skip py w snaps symbol pre post Hempty).
  reflexivity.
Qed.

Lemma missing_snapshot_is_skipped_witness :
  market_block Ref.py Sample.world Sample.market_snapshots "TLKM.JK" = Ok []
  /\ create_trading_prompt Ref.py Sample.world Sample.state Sample.market_snapshots
     = create_trading_prompt Ref.py (with_symbols Sample.world ["BBCA.JK"])
         Sample.state Sample.market_snapshots.
Proof.
  refine (missing_snapshot_is_skipped Ref.py Sample.world Sample.state
            Sample.market_snapshots ["BBCA.JK"] "TLKM.JK" [] "TLKM" _ _ _);
    reflexivity.
Defined.

(** ** The account and position block *)



(** A snapshot whose price is [None] is no fallback case: the subtraction
    raises. *)
Lemma null_price_raises snaps coin pos data :
  lookup coin snaps = Some data ->
  price data = None ->
  position_pnl snaps coin pos = Raise TypeError.
Proof.
  intros Hd Hp. unfold position_pnl, current_price. now rewrite Hd, Hp.
Qed.

Lemma null_price_raises_witness :
  position_pnl [("BBCA", Sample.unpriced)] "BBCA" Sample.long_position
  = Raise TypeError.
Proof.
  refine (null_price_raises [("BBCA", Sample.unpriced)] "BBCA"
            Sample.long_position Sample.unpriced _ _); reflexivity.
Defined.

Lemma positions_block_empty py st snaps :
  positions st = [] -> positions_block py st snaps = Ok ["No open positions yet."].
Proof. unfold positions_block. now intros ->. Qed.

(** ** The composer *)

(** C9.  Whenever the composer returns a document, its lines are, in this
    order: the preamble (elapsed whole minutes since the start, the current
    instant and the invocation count), the ordering disclaimer after one
    introductory line, the market heading, the blocks of the configured
    symbols in their configured order, the account lines, the position
    lines and the closing instruction; with no open position the position
    lines are the single line "No open positions yet.". *)
Theorem document_order py w st snaps doc :
  create_trading_prompt py w st snaps = Ok doc ->
  exists per_symbol open_positions,
    Forall2 (fun symbol block => market_block py w snaps symbol = Ok block)
            (SYMBOLS (config w)) per_symbol
    /\ positions_block py st snaps = Ok open_positions
    /\ (positions st = [] -> open_positions = ["No open positions yet."])
    /\ doc = Str.join newline
               ([ "It has been " ++ Str.of_int ((clock w - start_time st) / 60000000)
                    ++ " minutes since you started trading. ";
                  "The current time is " ++ isoformat py (clock w)
                    ++ " and you've been invoked "
                    ++ Str.of_int (invocation_count st) ++ " times. ";
                  "Below is a variety of state data, price data, and predictive signals so you can discover alpha.";
                  "ALL PRICE OR SIGNAL SERIES BELOW ARE ORDERED OLDEST → NEWEST." ]
                +++ market_heading_lines py w
                +++ List.concat per_symbol
                +++ account_lines w st
                +++ open_positions
                +++ ["Based on the above data, provide your trading decision in the required JSON format."]).
Proof.
  intros H.
  apply create_trading_prompt_inv in H.
  destruct H as (blocks & open_positions & Hb & Hp & ->).
  apply market_blocks_per_symbol in Hb. destruct Hb as (per_symbol & Hall & ->).
  exists per_symbol, open_positions.
  split; [exact Hall|]. split; [exact Hp|]. split; [|reflexivity].
  intros Hnone. rewrite (positions_block_empty py st snaps Hnone) in Hp.
  now injection Hp.
Qed.

Lemma document_order_witness :
  exists per_symbol open_positions,
    Forall2 (fun symbol block =>
               market_block Ref.py Sample.world Sample.market_snapshots symbol
               = Ok block)
            ["BBCA.JK"; "TLKM.JK"] per_symbol
    /\ positions_block Ref.py Sample.state Sample.market_snapshots = Ok open_positions
    /\ (positions Sample.state = [] -> open_positions = ["No open positions yet."])
    /\ Sample.document
       = Str.join newline
           ([ "It has been " ++ Str.of_int 60 ++ " minutes since you started trading. ";
              "The current time is " ++ isoformat Ref.py Sample.now
                ++ " and you've been invoked " ++ Str.of_int 12 ++ " times. ";
              "Below is a variety of state data, price data, and predictive signals so you can discover alpha.";
              "ALL PRICE OR SIGNAL SERIES BELOW ARE ORDERED OLDEST → NEWEST." ]
            +++ market_heading_lines Ref.py Sample.world
            +++ List.concat per_symbol
            +++ account_lines Sample.world Sample.state
            +++ open_positions
            +++ ["Based on the above data, provide your trading decision in the required JSON format."]).
Proof.
  refine (document_order Ref.py Sample.world Sample.state Sample.market_snapshots
            Sample.document _).
  vm_compute. reflexivity.
Defined.

(** C1, as amended.  The document is a function of the two arguments and of
    what the invocation reads besides them: two runs with the same state and
    snapshots, in worlds with the same clock reading, the same [config],
    the same cache refresh time, the same system time zone and the same
    cached news for every configured coin that has a snapshot, give the same
    result, byte for byte (or raise the same exception). *)
Theorem same_reads_same_document py st snaps w1 w2 :
  Spec.same_reads snaps w1 w2 ->
  create_trading_prompt py w1 st snaps = create_trading_prompt py w2 st snaps.
Proof.
  destruct w1 as [clk1 refresh1 news1 cfg1 tz1],
           w2 as [clk2 refresh2 news2 cfg2 tz2].
  unfold Spec.same_reads.
  cbn [clock config get_last_refresh_time get_cached_news local_utcoffset].
  intros (<- & <- & <- & Htz & Hnews).
  unfold create_trading_prompt, prompt_lines. cbn [config].
  rewrite (market_blocks_same_reads py snaps clk1 refresh1 refresh1 cfg1
             news1 news2 tz1 tz2 (SYMBOLS cfg1) Hnews).
  rewrite (market_heading_lines_same_reads py clk1 refresh1 cfg1 news1 news2
             tz1 tz2 Htz).
  reflexivity.
Qed.

Lemma same_reads_same_document_witness :
  create_trading_prompt Ref.py Sample.world Sample.state_with_positions
    Sample.market_snapshots
  = create_trading_prompt Ref.py Sample.other_news Sample.state_with_positions
      Sample.market_snapshots.
Proof.
  refine (same_reads_same_document Ref.py Sample.state_with_positions
            Sample.market_snapshots Sample.world Sample.other_news _).
  repeat split.
  intros symbol coin [<-|[<-|[]]] Hc Hd; cbn in Hc; injection Hc as <-.
  - reflexivity.
  - now elim Hd.
Defined.

(** C1, the claim as stated fails: with the same state and the same
    snapshots, the run five minutes later composes another document (the
    elapsed minutes and the current time are read from the clock). *)
Lemma same_arguments_different_documents :
  create_trading_prompt Ref.py Sample.world Sample.state Sample.market_snapshots
  <> create_trading_prompt Ref.py Sample.later Sample.state Sample.market_snapshots.
Proof. vm_compute. discriminate. Qed.

(** ** Inputs on which the composer returns *)

Lemma truthy_str v :
  Spec.str_or_falsy v = true -> truthy v = true -> exists s, v = VStr s.
Proof.
  unfold Spec.str_or_falsy. destruct v as [|s|q]; cbn; intros H Ht.
  - discriminate.
  - now exists s.
  - rewrite Ht in H. discriminate.
Qed.

Lemma py_or_str a b :
  Spec.str_or_falsy a = true ->
  (exists s, b = VStr s) ->
  exists s, py_or a b = VStr s.
Proof.
  intros Ha Hb. unfold py_or.
  destruct (truthy a) eqn:Ht; [now apply truthy_str|exact Hb].
Qed.

Lemma py_or_str_or_falsy a b :
  Spec.str_or_falsy a = true ->
  Spec.str_or_falsy b = true ->
  Spec.str_or_falsy (py_or a b) = true.
Proof. intros Ha Hb. unfold py_or. now destruct (truthy a). Qed.

Section WellTyped.

Variable e : dict.
Hypothesis typed : Spec.well_typed e = true.

Lemma well_typed_fields :
  Spec.str_or_falsy (get "sentiment" e) = true
  /\ Spec.str_or_falsy (get "published_at" e) = true
  /\ Spec.str_or_falsy (get "date" e) = true
  /\ Spec.str_or_falsy (get "summary" e) = true
  /\ Spec.str_or_falsy (get "snippet" e) = true
  /\ Spec.is_str (get_default "title" (VStr "") e) = true.
Proof.
  pose proof typed as H. unfold Spec.well_typed in H.
  repeat (apply andb_prop in H; destruct H as [H ?]).
  now repeat split.
Qed.


Lemma timestamp_of_str : exists s, timestamp_of e = VStr s.
Proof.
  destruct well_typed_fields as (_ & Hp & Hd & _).
  apply py_or_str; [now apply py_or_str_or_falsy|now exists ""].
Qed.



End WellTyped.












(** ** More on the freshness formatter *)

Lemma replace_app c by_ (a b : string) :
  Str.replace c by_ (a ++ b) = Str.replace c by_ a ++ Str.replace c by_ b.
Proof.
  induction a as [|x a IH]; cbn; [reflexivity|].
  rewrite IH. destruct (Ascii.eqb x c); [now rewrite append_assoc|reflexivity].
Qed.

Lemma lstrip_app s c t :
  Str.is_space c = false ->
  Str.lstrip (s ++ String c t) = Str.lstrip s ++ String c t.
Proof.
  intros Hc. induction s as [|a s IH]; cbn.
  - now rewrite Hc.
  - destruct (Str.is_space a); [exact IH|reflexivity].
Qed.

Lemma rstrip_app s u :
  u <> "" -> Str.rstrip u = u -> Str.rstrip (s ++ u) = s ++ u.
Proof.
  intros Hne Hu. induction s as [|a s IH]; cbn; [exact Hu|].
  rewrite IH. destruct (s ++ u) eqn:E; [|reflexivity].
  destruct s; cbn in E; [now elim Hne|discriminate].
Qed.

Lemma app_not_empty s c t : ((s ++ String c t =? "") = false)%string.
Proof. now destruct s. Qed.

(** The candidate handed to the parser for a timestamp that ends in "Z". *)
Lemma candidate_with_Z s :
  Str.replace char_Z "+00:00" (Str.strip (s ++ "Z"))
  = Str.replace char_Z "+00:00" (Str.lstrip s) ++ "+00:00".
Proof.
  unfold Str.strip. rewrite lstrip_app by reflexivity.
  rewrite rstrip_app by (reflexivity || discriminate).
  now rewrite replace_app.
Qed.

Lemma candidate_with_offset s :
  Str.replace char_Z "+00:00" (Str.strip (s ++ "+00:00"))
  = Str.replace char_Z "+00:00" (Str.lstrip s) ++ "+00:00".
Proof.
  unfold Str.strip. rewrite lstrip_app by reflexivity.
  rewrite rstrip_app by (reflexivity || discriminate).
  now rewrite replace_app.
Qed.

(** [describe_freshness] makes no difference between a timestamp that ends
    in "Z" and the same timestamp ending in "+00:00", whatever the parser
    does with it: both reach the parser as the same string, and the
    fallback of an unparsed one is the same. *)
Theorem trailing_Z_is_explicit_offset py now s rest :
  describe_freshness py now (("published_at", VStr (s ++ "Z")) :: rest)
  = describe_freshness py now (("published_at", VStr (s ++ "+00:00")) :: rest).
Proof.
  unfold describe_freshness.
  change (get "published_at" (("published_at", VStr (s ++ "Z")) :: rest))
    with (VStr (s ++ "Z")).
  change (get "published_at" (("published_at", VStr (s ++ "+00:00")) :: rest))
    with (VStr (s ++ "+00:00")).
  change (get "raw_date" (("published_at", VStr (s ++ "Z")) :: rest))
    with (get "raw_date" rest).
  change (get "raw_date" (("published_at", VStr (s ++ "+00:00")) :: rest))
    with (get "raw_date" rest).
  unfold py_or. cbn [truthy]. rewrite !app_not_empty. cbn [negb py_str].
  rewrite candidate_with_Z, candidate_with_offset.
  unfold Str.strip. rewrite !lstrip_app by reflexivity.
  rewrite !rstrip_app by (reflexivity || discriminate).
  rewrite !app_not_empty. cbn [truthy]. now rewrite !app_not_empty.
Qed.

(** When [published_at] is set, [date] is never read: two entries with the
    same true [published_at] and the same [raw_date] get the same
    freshness, whatever their other keys hold. *)
Theorem published_at_takes_precedence py now e1 e2 :
  truthy (get "published_at" e1) = true ->
  get "published_at" e1 = get "published_at" e2 ->
  get "raw_date" e1 = get "raw_date" e2 ->
  describe_freshness py now e1 = describe_freshness py now e2.
Proof.
  intros Ht Hp Hr. unfold describe_freshness, py_or.
  rewrite <- Hp, <- Hr, Ht. reflexivity.
Qed.

Lemma published_at_takes_precedence_witness :
  describe_freshness Ref.py Sample.now
    [("published_at", VStr "2023-12-31T23:00:00Z"); ("date", VStr "2020-01-01")]
  = describe_freshness Ref.py Sample.now
      [("date", VStr "yesterday"); ("published_at", VStr "2023-12-31T23:00:00Z")].
Proof.
  refine (published_at_takes_precedence Ref.py Sample.now _ _ _ _ _);
    reflexivity.
Defined.

(** The count of a phrase is never zero or negative below the years: the
    minutes run from 1 to 59, the hours to 23, the days to 6, the weeks to
    4 and the months to 11; only the years start at 0. *)
Theorem freshness_counts_in_range seconds :
  (seconds < 60 /\ freshness_phrase seconds = "just now")
  \/ exists n unit,
      freshness_phrase seconds = count_ago n unit
      /\ ((unit = "minute" /\ 1 <= n <= 59)
          \/ (unit = "hour" /\ 1 <= n <= 23)
          \/ (unit = "day" /\ 1 <= n <= 6)
          \/ (unit = "week" /\ 1 <= n <= 4)
          \/ (unit = "month" /\ 1 <= n <= 11)
          \/ (unit = "year" /\ 0 <= n)).
Proof.
  unfold freshness_phrase. cbv zeta.
  destruct (Z.ltb_spec seconds 60); [left; now split|right].
  destruct (Z.ltb_spec (seconds / 60) 60).
  { eexists _, _. split; [reflexivity|]. left. split; [reflexivity|div_lia]. }
  destruct (Z.ltb_spec (seconds / 60 / 60) 24).
  { eexists _, _. split; [reflexivity|]. right; left. split; [reflexivity|div_lia]. }
  destruct (Z.ltb_spec (seconds / 60 / 60 / 24) 7).
  { eexists _, _. split; [reflexivity|]. do 2 right; left.
    split; [reflexivity|div_lia]. }
  destruct (Z.ltb_spec (seconds / 60 / 60 / 24 / 7) 5).
  { eexists _, _. split; [reflexivity|]. do 3 right; left.
    split; [reflexivity|div_lia]. }
  destruct (Z.ltb_spec (seconds / 60 / 60 / 24 / 30) 12).
  { eexists _, _. split; [reflexivity|]. do 4 right; left.
    split; [reflexivity|div_lia]. }
  eexists _, _. split; [reflexivity|]. do 5 right.
  split; [reflexivity|div_lia].
Qed.

(** ** More on the sentiment aggregator *)

Lemma increment_total k c : Derived.total (increment k c) = Derived.total c + 1.
Proof.
  unfold increment, Derived.total.
  destruct (k =? "positive")%string; [cbn; lia|].
  destruct (k =? "negative")%string; [cbn; lia|].
  destruct (k =? "neutral")%string; cbn; lia.
Qed.

Lemma loop_body_total i e st st' :
  loop_body i e st = Ok st' ->
  Derived.total (counts st') = Derived.total (counts st) + 1.
Proof.
  unfold loop_body, tally. intros H.
  destruct (method_lower (sentiment_of e)) as [sent|]; [|discriminate].
  cbn [bind] in H.
  destruct (select_key i e (key_entry st)) as [key'|];
    [|destruct (lookup sent sentiment_weights); discriminate].
  destruct (lookup sent sentiment_weights); cbn [bind] in H;
    injection H as <-; cbn [counts]; apply increment_total.
Qed.

Lemma loop_total entries : forall i st st',
  loop i entries st = Ok st' ->
  Derived.total (counts st')
  = Derived.total (counts st) + Z.of_nat (List.length entries).
Proof.
  induction entries as [|e rest IH]; cbn [loop]; intros i st st' H.
  - injection H as <-. cbn. lia.
  - destruct (loop_body i e st) as [st1|] eqn:Hb; [|discriminate].
    cbn [bind] in H. apply loop_body_total in Hb. apply IH in H.
    cbn [List.length]. lia.
Qed.

Lemma contribution_counted e :
  Z.of_nat (List.length match Spec.contribution e with
                        | Some x => [x]
                        | None => []
                        end)
  = (if (Spec.label e =? "positive")%string then 1 else 0)
    + (if (Spec.label e =? "negative")%string then 1 else 0)
    + (if (Spec.label e =? "neutral")%string then 1 else 0).
Proof.
  unfold Spec.contribution, Spec.weight.
  generalize (Spec.label e). intros lbl.
  destruct (String.eqb_spec lbl "positive") as [->|_]; [reflexivity|].
  destruct (String.eqb_spec lbl "negative") as [->|_]; [reflexivity|].
  destruct (String.eqb_spec lbl "neutral") as [->|_]; reflexivity.
Qed.

Lemma contributions_counted entries :
  Z.of_nat (List.length (Spec.contributions entries))
  = Spec.count "positive" entries + Spec.count "negative" entries
    + Spec.count "neutral" entries.
Proof.
  induction entries as [|e rest IH]; [reflexivity|].
  cbn [Spec.contributions Spec.count].
  pose proof (contribution_counted e) as He.
  destruct (Spec.contribution e); cbn [List.length] in *; lia.
Qed.

(** The loop counts every entry exactly once, under one of the four keys, and
    keeps one score for each entry counted as positive, negative or
    neutral. *)
Theorem every_entry_is_counted_once entries st :
  loop 0 entries loop_init = Ok st ->
  positive (counts st) + negative (counts st) + neutral (counts st)
  + unknown (counts st) = Z.of_nat (List.length entries)
  /\ Z.of_nat (List.length (weighted_scores st))
     = positive (counts st) + negative (counts st) + neutral (counts st)
  /\ 0 <= positive (counts st) /\ 0 <= negative (counts st)
  /\ 0 <= neutral (counts st) /\ 0 <= unknown (counts st).
Proof.
  intros H.
  pose proof (loop_total _ _ _ _ H) as Ht.
  pose proof (loop_tally _ _ _ _ H) as (Hs & Hp & Hn & Hz).
  pose proof (contributions_counted entries) as Hc.
  cbn in Ht, Hs, Hp, Hn, Hz. rewrite Hs.
  unfold Derived.total in Ht.
  assert (forall lbl l, 0 <= Spec.count lbl l) as Hpos.
  { intros lbl l. induction l as [|e l IH]; cbn [Spec.count]; [lia|].
    destruct (Spec.label e =? lbl)%string; lia. }
  pose proof (Hpos "positive"%string entries).
  pose proof (Hpos "negative"%string entries).
  pose proof (Hpos "neutral"%string entries).
  assert (List.length (Spec.contributions entries) <= List.length entries)%nat.
  { clear. induction entries as [|e l IH]; cbn [Spec.contributions]; [cbn; lia|].
    destruct (Spec.contribution e); cbn [List.length]; lia. }
  repeat split; lia.
Qed.

Lemma every_entry_is_counted_once_witness :
  exists st,
    loop 0 Derived.dated loop_init = Ok st
    /\ positive (counts st) + negative (counts st) + neutral (counts st)
       + unknown (counts st) = 4
    /\ Z.of_nat (List.length (weighted_scores st)) = 2.
Proof.
  eexists. split; [reflexivity|].
  destruct (every_entry_is_counted_once Derived.dated _ eq_refl)
    as (Ht & Hs & _).
  split; [exact Ht|exact Hs].
Defined.

Lemma contribution_bounded e x :
  Derived.confidence_in_unit e ->
  Spec.contribution e = Some x ->
  (-1 <= x <= 1)%Q.
Proof.
  unfold Derived.confidence_in_unit, Spec.contribution, Spec.weight.
  intros Hc.
  destruct (get "sentiment_confidence" e) as [| |c];
    try specialize (Hc c eq_refl);
    destruct (Spec.label e =? "positive")%string;
    [| destruct (Spec.label e =? "negative")%string;
       [| destruct (Spec.label e =? "neutral")%string ] | |
       destruct (Spec.label e =? "negative")%string;
       [| destruct (Spec.label e =? "neutral")%string ] | |
       destruct (Spec.label e =? "negative")%string;
       [| destruct (Spec.label e =? "neutral")%string ]];
    intros H; try discriminate; injection H as <-; lra.
Qed.

Lemma contributions_bounded entries :
  Forall Derived.confidence_in_unit entries ->
  Forall (fun x => (-1 <= x <= 1)%Q) (Spec.contributions entries).
Proof.
  induction 1 as [|e rest He _ IH]; cbn [Spec.contributions]; [constructor|].
  destruct (Spec.contribution e) as [x|] eqn:Hx; [|exact IH].
  constructor; [now apply (contribution_bounded e)|exact IH].
Qed.

Lemma sum_bounded l :
  Forall (fun x => (-1 <= x <= 1)%Q) l ->
  (- inject_Z (Z.of_nat (List.length l)) <= Num.sum l
   <= inject_Z (Z.of_nat (List.length l)))%Q.
Proof.
  induction 1 as [|x l Hx _ IH]; cbn [Num.sum List.length].
  - split; unfold Qle; cbn; lia.
  - rewrite Nat2Z.inj_succ, <- Z.add_1_r, inject_Z_plus.
    change (inject_Z 1) with 1%Q. lra.
Qed.

(** Rounding keeps the mean of scores between -1 and 1 within these
    bounds: the sum rounds to a float between the count's float and its
    opposite, and -1 and 1 are floats. *)
Lemma fmean_bounded l :
  l <> [] ->
  Forall (fun x => (-1 <= x <= 1)%Q) l ->
  (-1 <= Num.fmean l <= 1)%Q.
Proof.
  intros Hne Hall. pose proof (sum_bounded l Hall) as (Hl & Hu).
  unfold Num.fmean.
  assert (1 <= Z.of_nat (List.length l)) as Hlen
      by (destruct l; [now elim Hne|cbn [List.length]; lia]).
  pose proof (binary64_count _ Hlen) as Hn.
  apply binary64_mono in Hl. apply binary64_mono in Hu.
  rewrite binary64_opp in Hl.
  set (n := Num.binary64 (inject_Z (Z.of_nat (List.length l)))) in *.
  set (total := Num.binary64 (Num.sum l)) in *.
  assert (-1 <= total / n <= 1)%Q as (Hl' & Hu').
  { split; [apply Qle_shift_div_l|apply Qle_shift_div_r]; lra. }
  apply binary64_mono in Hl'. apply binary64_mono in Hu'.
  change (Num.binary64 (-1)) with (-1)%Q in Hl'.
  change (Num.binary64 1) with 1%Q in Hu'.
  split; assumption.
Qed.

(** With every numeric confidence between 0 and 1, the net score lies
    between -1 and 1. *)
Theorem net_score_within_unit entries st :
  Forall Derived.confidence_in_unit entries ->
  loop 0 entries loop_init = Ok st ->
  (-1 <= net_score_of (weighted_scores st) <= 1)%Q.
Proof.
  intros Hc H.
  pose proof (loop_tally _ _ _ _ H) as (Hs & _). cbn in Hs. rewrite Hs.
  pose proof (contributions_bounded entries Hc) as Hb.
  unfold net_score_of.
  destruct (Spec.contributions entries) as [|x l] eqn:E; [lra|].
  apply fmean_bounded; [discriminate|exact Hb].
Qed.

Lemma net_score_within_unit_witness :
  exists st,
    loop 0 Derived.dated loop_init = Ok st
    /\ (-1 <= net_score_of (weighted_scores st) <= 1)%Q.
Proof.
  eexists. split; [reflexivity|].
  apply (net_score_within_unit Derived.dated); [|reflexivity].
  repeat (apply Forall_cons;
          [intros c Hc; try discriminate; injection Hc as <-; lra|]).
  apply Forall_nil.
Defined.

(** *** The order of the timestamps *)

Lemma compare_refl (a : string) : String.compare a a = Eq.
Proof.
  induction a as [|x a IH]; cbn; [reflexivity|].
  unfold Ascii.compare. now rewrite N.compare_refl.
Qed.

Lemma compare_lt_trans (a : string) : forall b c,
  String.compare a b = Lt -> String.compare b c = Lt -> String.compare a c = Lt.
Proof.
  induction a as [|x a IH]; intros [|y b] [|z c]; cbn; try easy.
  unfold Ascii.compare.
  destruct (N.compare_spec (N_of_ascii x) (N_of_ascii y));
    destruct (N.compare_spec (N_of_ascii y) (N_of_ascii z));
    destruct (N.compare_spec (N_of_ascii x) (N_of_ascii z));
    try easy; try lia.
  apply IH.
Qed.

Lemma leb_refl (a : string) : String.leb a a = true.
Proof. unfold String.leb. now rewrite compare_refl. Qed.

Lemma leb_empty (a : string) : String.leb "" a = true.
Proof. now destruct a. Qed.

Lemma leb_empty_inv (a : string) : String.leb a "" = true -> a = "".
Proof. now destruct a. Qed.

Lemma gtb_empty (a : string) : Str.gtb "" a = false.
Proof. now destruct a. Qed.

Lemma gtb_leb (a b : string) : Str.gtb a b = negb (String.leb a b).
Proof. unfold Str.gtb, String.leb. now destruct (String.compare a b). Qed.

Lemma gtb_lt (a b : string) : Str.gtb a b = true <-> String.compare b a = Lt.
Proof.
  unfold Str.gtb. rewrite (String.compare_antisym b a).
  destruct (String.compare a b); cbn; split; easy.
Qed.

(** [a <= b < c] gives [a < c]. *)
Lemma leb_gtb_trans (a b c : string) :
  String.leb a b = true -> Str.gtb c b = true -> Str.gtb c a = true.
Proof.
  intros Hab Hcb. apply gtb_lt in Hcb. apply gtb_lt.
  unfold String.leb in Hab.
  destruct (String.compare a b) eqn:E; try discriminate.
  - apply String.compare_eq_iff in E. now subst.
  - now apply (compare_lt_trans a b c).
Qed.

Lemma gtb_leb_weaken (a b : string) : Str.gtb a b = true -> String.leb b a = true.
Proof. intros H. apply gtb_lt in H. unfold String.leb. now rewrite H. Qed.

(** *** The key entry *)

Lemma timestamp_string_empty : Derived.timestamp_string [] = "".
Proof. reflexivity. Qed.

Lemma dict_falsy (d : dict) : dict_truthy d = false -> d = [].
Proof. now destruct d. Qed.

(** On well-typed entries the selection step is [Derived.pick]. *)
Lemma select_key_pick i e key :
  Spec.well_typed e = true ->
  key_ok key ->
  select_key i e key = Ok (Derived.pick i e key).
Proof.
  intros He Hk. unfold select_key, Derived.pick, Derived.timestamp_string.
  destruct key as [[j old]|]; [|reflexivity].
  destruct (dict_truthy old); [|reflexivity].
  destruct (timestamp_of_str e He) as (tn & ->).
  destruct (timestamp_of_str old Hk) as (tk & ->).
  cbn [truthy].
  destruct (String.eqb_spec tn "") as [->|_]; cbn [negb py_gt bind].
  - now rewrite gtb_empty.
  - now destruct (Str.gtb tn tk).
Qed.

Lemma pick_ok i e key :
  Spec.well_typed e = true -> key_ok key -> key_ok (Derived.pick i e key).
Proof.
  intros He Hk. unfold Derived.pick.
  destruct key as [[j old]|]; [|exact He].
  destruct (dict_truthy old); [|exact He].
  now destruct (Str.gtb _ _).
Qed.

Lemma nth_error_snoc {A : Type} (l : list A) (x : A) :
  nth_error (l ++ [x]) (List.length l) = Some x.
Proof. induction l; cbn; auto. Qed.

Lemma nth_error_before {A : Type} (l : list A) (x : A) i y :
  nth_error l i = Some y -> nth_error (l ++ [x]) i = Some y.
Proof.
  revert i. induction l as [|a l IH]; intros [|i]; cbn; try easy. apply IH.
Qed.

Lemma nth_error_snoc_inv {A : Type} (l : list A) (x : A) i y :
  (i < List.length l)%nat ->
  nth_error (l ++ [x]) i = Some y -> nth_error l i = Some y.
Proof.
  revert i. induction l as [|a l IH]; intros [|i]; cbn; try easy; try lia.
  intros Hi. apply IH. lia.
Qed.

Lemma nth_error_length {A : Type} (l : list A) i y :
  nth_error l i = Some y -> (i < List.length l)%nat.
Proof.
  revert i. induction l as [|a l IH]; intros [|i]; cbn; try easy; try lia.
  intros H. apply IH in H. lia.
Qed.

Lemma nth_error_member {A : Type} (l : list A) i y :
  nth_error l i = Some y -> In y l.
Proof.
  revert i. induction l as [|a l IH]; intros [|i]; cbn; try easy.
  - intros H. injection H as ->. now left.
  - intros H. right. now apply (IH i).
Qed.

(** One step keeps the invariant of the selection. *)
Lemma pick_keeps_latest seen e key :
  Derived.key_is_latest seen key ->
  Derived.key_is_latest (seen ++ [e]) (Derived.pick (List.length seen) e key).
Proof.
  unfold Derived.key_is_latest, Derived.pick.
  destruct key as [[j old]|].
  - intros (Hnth & Hmax & Hfirst & Hempty).
    destruct (dict_truthy old) eqn:Hold;
      [destruct (Str.gtb (Derived.timestamp_string e)
                         (Derived.timestamp_string old)) eqn:Hgt|].
    + (* the entry is strictly later *)
      split; [apply nth_error_snoc|]. split; [|split].
      * intros x Hx. apply in_app_or in Hx. destruct Hx as [Hx|[<-|[]]].
        -- apply gtb_leb_weaken.
           apply (leb_gtb_trans _ (Derived.timestamp_string old)); auto.
        -- apply leb_refl.
      * intros i x Hi Hx _.
        apply nth_error_snoc_inv in Hx; [|exact Hi].
        apply (leb_gtb_trans _ (Derived.timestamp_string old)); [|exact Hgt].
        apply Hmax. now apply (nth_error_member seen i).
      * intros He. apply dict_falsy in He. subst e.
        rewrite timestamp_string_empty, gtb_empty in Hgt. discriminate.
    + (* the key stays *)
      split; [now apply nth_error_before|]. split; [|split].
      * intros x Hx. apply in_app_or in Hx. destruct Hx as [Hx|[<-|[]]].
        -- now apply Hmax.
        -- rewrite gtb_leb in Hgt. now destruct (String.leb _ _).
      * intros i x Hi Hx Hxt. apply (Hfirst i x Hi); [|exact Hxt].
        apply nth_error_snoc_inv in Hx; [exact Hx|].
        apply nth_error_length in Hnth. lia.
      * intros Hk. rewrite Hk in Hold. discriminate.
    + (* the key was an empty dictionary *)
      specialize (Hempty eq_refl).
      split; [apply nth_error_snoc|]. split; [|split].
      * intros x Hx. apply in_app_or in Hx. destruct Hx as [Hx|[<-|[]]].
        -- rewrite (Hempty x Hx), timestamp_string_empty. apply leb_empty.
        -- apply leb_refl.
      * intros i x Hi Hx Hxt. exfalso.
        apply nth_error_snoc_inv in Hx; [|exact Hi].
        apply nth_error_member in Hx. rewrite (Hempty x Hx) in Hxt.
        discriminate.
      * intros He x Hx. apply in_app_or in Hx. destruct Hx as [Hx|[<-|[]]].
        -- now apply Hempty.
        -- now apply dict_falsy.
  - intros ->. cbn [app List.length]. split; [reflexivity|]. split; [|split].
    + intros x [<-|[]]. apply leb_refl.
    + intros i x Hi. lia.
    + intros He x [<-|[]]. now apply dict_falsy.
Qed.

Lemma loop_key_latest rest : forall seen st st',
  (forall e, In e rest -> Spec.well_typed e = true) ->
  key_ok (key_entry st) ->
  Derived.key_is_latest seen (key_entry st) ->
  loop (List.length seen) rest st = Ok st' ->
  Derived.key_is_latest (seen ++ rest) (key_entry st').
Proof.
  induction rest as [|e rest IH]; cbn [loop]; intros seen st st' Hall Hk Hinv H.
  - injection H as <-. now rewrite app_nil_r.
  - destruct (loop_body (List.length seen) e st) as [st1|] eqn:Hb; [|discriminate].
    cbn [bind] in H.
    apply loop_body_tally in Hb. destruct Hb as (_ & _ & _ & _ & Hsel).
    rewrite select_key_pick in Hsel by (auto; apply Hall; now left).
    injection Hsel as Hsel.
    replace (seen ++ e :: rest)%list with ((seen ++ [e]) ++ rest)%list
      by now rewrite <- app_assoc.
    apply (IH (seen ++ [e])%list st1 st').
    + intros x Hx. apply Hall. now right.
    + rewrite <- Hsel. apply pick_ok; [apply Hall; now left|exact Hk].
    + rewrite <- Hsel. now apply pick_keeps_latest.
    + now rewrite last_length.
Qed.

(** On entries whose timestamps are strings, the key entry returned is the
    first of the entries with the greatest timestamp in the order of the
    strings: no entry has a greater one, and every non-empty entry before
    it has a strictly smaller one. *)
Theorem key_entry_is_latest py now entries summary key_line j k :
  (forall e, In e entries -> Spec.well_typed e = true) ->
  summarize_news_sentiment py now entries = Ok (Some (summary, key_line, Some (j, k))) ->
  nth_error entries j = Some k
  /\ (forall e, In e entries ->
                String.leb (Derived.timestamp_string e)
                           (Derived.timestamp_string k) = true)
  /\ (forall i e, (i < j)%nat -> nth_error entries i = Some e -> e <> [] ->
                  Str.gtb (Derived.timestamp_string k)
                          (Derived.timestamp_string e) = true).
Proof.
  intros Hall H.
  destruct entries as [|e0 rest]; [discriminate|].
  apply summarize_inv in H. destruct H as (st & kl & Hloop & _ & H).
  pose proof (loop_key_latest (e0 :: rest) [] loop_init st Hall I eq_refl Hloop)
    as Hinv.
  cbn [app] in Hinv.
  injection H as _ _ Hkey.
  destruct (key_truthy (key_entry st)); [|discriminate].
  rewrite <- Hkey in Hinv. destruct Hinv as (Hnth & Hmax & Hfirst & _).
  split; [exact Hnth|]. split; [exact Hmax|].
  intros i e Hi He Hne. apply (Hfirst i e Hi He). now destruct e.
Qed.

Lemma key_entry_is_latest_witness :
  nth_error Derived.dated 1 = Some (nth 1 Derived.dated [])
  /\ (forall e, In e Derived.dated ->
                String.leb (Derived.timestamp_string e) "2023-12-31T21:00:00Z" = true)
  /\ (forall i e, (i < 1)%nat -> nth_error Derived.dated i = Some e -> e <> [] ->
                  Str.gtb "2023-12-31T21:00:00Z" (Derived.timestamp_string e) = true).
Proof.
  refine (key_entry_is_latest Ref.py Sample.now Derived.dated
            "Bearish tilt: +1 / -1 / =0 (net score -0.25)."
            "Key headline [POSITIVE] Latest (published 3 hours ago)"
            1 (nth 1 Derived.dated []) _ _).
  - intros e [<-|[<-|[<-|[<-|[]]]]]; reflexivity.
  - vm_compute. reflexivity.
Defined.

(** What a step of the selection can return, whatever the entries hold. *)
Lemma select_key_cases i e key key' :
  select_key i e key = Ok key' ->
  (key' = Some (i, e) /\ (key_truthy key = false \/ e <> []))
  \/ (key' = key /\ key_truthy key = true).
Proof.
  unfold select_key, key_truthy.
  destruct key as [[j old]|]; [|intros H; injection H as <-; left; auto].
  destruct (dict_truthy old); [|intros H; injection H as <-; left; auto].
  destruct (truthy (timestamp_of e)) eqn:Ht;
    [|intros H; injection H as <-; right; auto].
  destruct (py_gt (timestamp_of e) (timestamp_of old)) as [[|]|];
    cbn [bind]; intros H; try discriminate; injection H as <-.
  - left. split; [reflexivity|]. right. intros ->. discriminate.
  - right. auto.
Qed.

Lemma step_keeps_member seen e key key' :
  Derived.key_is_member seen key ->
  select_key (List.length seen) e key = Ok key' ->
  Derived.key_is_member (seen ++ [e]) key'.
Proof.
  intros Hinv Hsel. apply select_key_cases in Hsel.
  destruct Hsel as [(-> & Hwhy)|(-> & Ht)]; unfold Derived.key_is_member in *.
  - split; [apply nth_error_snoc|].
    intros He x Hx. apply dict_falsy in He. subst e.
    destruct Hwhy as [Hf|Hne]; [|now elim Hne].
    apply in_app_or in Hx. destruct Hx as [Hx|[<-|[]]]; [|reflexivity].
    destruct key as [[j old]|]; [|subst seen; now elim Hx].
    destruct Hinv as (_ & Hempty). now apply Hempty.
  - destruct key as [[j old]|]; [|discriminate].
    destruct Hinv as (Hnth & _). cbn [key_truthy] in Ht.
    split; [now apply nth_error_before|].
    intros Hf. rewrite Hf in Ht. discriminate.
Qed.

Lemma loop_key_member rest : forall seen st st',
  Derived.key_is_member seen (key_entry st) ->
  loop (List.length seen) rest st = Ok st' ->
  Derived.key_is_member (seen ++ rest) (key_entry st').
Proof.
  induction rest as [|e rest IH]; cbn [loop]; intros seen st st' Hinv H.
  - injection H as <-. now rewrite app_nil_r.
  - destruct (loop_body (List.length seen) e st) as [st1|] eqn:Hb; [|discriminate].
    cbn [bind] in H.
    apply loop_body_tally in Hb. destruct Hb as (_ & _ & _ & _ & Hsel).
    replace (seen ++ e :: rest)%list with ((seen ++ [e]) ++ rest)%list
      by now rewrite <- app_assoc.
    apply (IH (seen ++ [e])%list st1 st').
    + now apply (step_keeps_member seen e (key_entry st)).
    + now rewrite last_length.
Qed.

(** What the aggregator returns as key entry, for entries of any content: an
    entry of the list, at the index kept with it, and never an empty
    dictionary; [None] exactly when every entry of the list is an empty
    dictionary. *)
Theorem returned_key_entry py now entries summary key_line key :
  summarize_news_sentiment py now entries = Ok (Some (summary, key_line, key)) ->
  match key with
  | Some (j, k) => nth_error entries j = Some k /\ k <> []
  | None => forall e, In e entries -> e = []
  end.
Proof.
  intros H.
  destruct entries as [|e0 rest]; [discriminate|].
  apply summarize_inv in H. destruct H as (st & kl & Hloop & _ & H).
  pose proof (loop_key_member (e0 :: rest) [] loop_init st eq_refl Hloop) as Hinv.
  cbn [app] in Hinv.
  injection H as _ _ Hkey. subst key.
  unfold Derived.key_is_member, key_truthy in *.
  destruct (key_entry st) as [[j k]|]; [|discriminate].
  destruct Hinv as (Hnth & Hempty).
  destruct (dict_truthy k) eqn:Hk.
  - split; [exact Hnth|]. intros ->. discriminate.
  - now apply Hempty.
Qed.

Lemma returned_key_entry_witness :
  nth_error Derived.dated 1 = Some (nth 1 Derived.dated [])
  /\ nth 1 Derived.dated [] <> [].
Proof.
  refine (returned_key_entry Ref.py Sample.now Derived.dated
            "Bearish tilt: +1 / -1 / =0 (net score -0.25)."
            "Key headline [POSITIVE] Latest (published 3 hours ago)"
            (Some (1%nat, nth 1 Derived.dated [])) _).
  vm_compute. reflexivity.
Defined.

(** *** The order of the entries *)

Lemma count_permutation lbl l l' :
  Permutation l l' -> Spec.count lbl l = Spec.count lbl l'.
Proof.
  induction 1 as [|e l l' _ IH|e1 e2 l|l1 l2 l3 _ IH1 _ IH2]; cbn [Spec.count];
    lia.
Qed.

Lemma contributions_permutation l l' :
  Permutation l l' ->
  Permutation (Spec.contributions l) (Spec.contributions l').
Proof.
  induction 1 as [|e l l' _ IH|e1 e2 l|l1 l2 l3 _ IH1 _ IH2];
    cbn [Spec.contributions].
  - constructor.
  - destruct (Spec.contribution e); [now constructor|exact IH].
  - destruct (Spec.contribution e1), (Spec.contribution e2);
      try apply Permutation_refl. apply perm_swap.
  - now apply (Permutation_trans IH1).
Qed.

Lemma sum_permutation l l' : Permutation l l' -> (Num.sum l == Num.sum l')%Q.
Proof.
  induction 1 as [|x l l' _ IH|x y l|l1 l2 l3 _ IH1 _ IH2]; cbn [Num.sum].
  - reflexivity.
  - now rewrite IH.
  - ring.
  - now rewrite IH1.
Qed.

Lemma net_score_permutation l l' :
  Permutation l l' -> (net_score_of l == net_score_of l')%Q.
Proof.
  intros Hp. unfold net_score_of, Num.fmean.
  pose proof (Permutation_length Hp) as Hlen.
  pose proof (sum_permutation l l' Hp) as Hsum.
  destruct l as [|x l], l' as [|x' l']; try discriminate; [reflexivity|].
  rewrite Hlen, (binary64_compat _ _ Hsum). reflexivity.
Qed.

(** The counts and the net score do not depend on the order of the entries:
    two lists with the same entries in another order, on which the loop
    returns, give the same four counts and equal net scores. *)
Theorem tally_ignores_order entries entries' st st' :
  Permutation entries entries' ->
  loop 0 entries loop_init = Ok st ->
  loop 0 entries' loop_init = Ok st' ->
  positive (counts st) = positive (counts st')
  /\ negative (counts st) = negative (counts st')
  /\ neutral (counts st) = neutral (counts st')
  /\ unknown (counts st) = unknown (counts st')
  /\ (net_score_of (weighted_scores st) == net_score_of (weighted_scores st'))%Q.
Proof.
  intros Hp H H'.
  pose proof (loop_tally _ _ _ _ H) as (Hs & Hpos & Hneg & Hneu).
  pose proof (loop_tally _ _ _ _ H') as (Hs' & Hpos' & Hneg' & Hneu').
  pose proof (loop_total _ _ _ _ H) as Ht.
  pose proof (loop_total _ _ _ _ H') as Ht'.
  pose proof (Permutation_length Hp) as Hlen.
  rewrite (count_permutation "positive" _ _ Hp) in Hpos.
  rewrite (count_permutation "negative" _ _ Hp) in Hneg.
  rewrite (count_permutation "neutral" _ _ Hp) in Hneu.
  cbn in Hs, Hs', Hpos, Hneg, Hneu, Hpos', Hneg', Hneu', Ht, Ht'.
  unfold Derived.total in Ht, Ht'.
  repeat split; try lia.
  rewrite Hs, Hs'. apply net_score_permutation.
  now apply contributions_permutation.
Qed.

Lemma tally_ignores_order_witness :
  exists st st',
    loop 0 Sample.entries loop_init = Ok st
    /\ loop 0 (rev Sample.entries) loop_init = Ok st'
    /\ positive (counts st) = positive (counts st')
    /\ (net_score_of (weighted_scores st) == net_score_of (weighted_scores st'))%Q.
Proof.
  eexists _, _. split; [reflexivity|]. split; [reflexivity|].
  destruct (tally_ignores_order Sample.entries (rev Sample.entries) _ _
              (Permutation_rev _) eq_refl eq_refl) as (Hp & _ & _ & _ & Hn).
  split; [exact Hp|exact Hn].
Defined.

(** ** More on the market blocks *)

(** The headline loop drops the entry at the key's index and nothing else. *)
Lemma headline_lines_length py w key entries : forall i lines,
  headline_lines py w key i entries = Ok lines ->
  List.length lines
  = (List.length entries
     - match key with
       | Some j => if (i <=? j)%nat && (j <? i + List.length entries)%nat
                   then 1 else 0
       | None => 0
       end)%nat.
Proof.
  induction entries as [|e rest IH]; cbn [headline_lines List.length];
    intros i lines H.
  - injection H as <-. reflexivity.
  - destruct key as [j|].
    + destruct (Nat.eqb_spec i j) as [->|Hij].
      * apply IH in H. rewrite H.
        destruct (Nat.leb_spec (S j) j); [lia|].
        destruct (Nat.leb_spec j j); [|lia].
        destruct (Nat.ltb_spec j (j + S (List.length rest))); [|lia].
        cbn [andb]. lia.
      * destruct (headline_line py w e) as [line|]; [|discriminate].
        cbn [bind] in H.
        destruct (headline_lines py w (Some j) (S i) rest) as [more|] eqn:Hm;
          [|discriminate].
        injection H as <-. apply IH in Hm. cbn [List.length]. rewrite Hm.
        destruct (Nat.leb_spec (S i) j), (Nat.leb_spec i j),
          (Nat.ltb_spec j (S i + List.length rest)),
          (Nat.ltb_spec j (i + S (List.length rest)));
          cbn [andb]; lia.
    + destruct (headline_line py w e) as [line|]; [|discriminate].
      cbn [bind] in H.
      destruct (headline_lines py w None (S i) rest) as [more|] eqn:Hm;
        [|discriminate].
      injection H as <-. apply IH in Hm. cbn [List.length]. lia.
Qed.

(** Every entry that is not at the key's index has got its line. *)
Lemma headline_lines_rendered py w key entries : forall i lines,
  headline_lines py w key i entries = Ok lines ->
  forall n e,
    nth_error entries n = Some e ->
    key <> Some (i + n)%nat ->
    exists line, headline_line py w e = Ok line.
Proof.
  induction entries as [|e0 rest IH]; cbn [headline_lines];
    intros i lines H n e Hn Hkey.
  - now destruct n.
  - destruct n as [|n]; cbn [nth_error] in Hn.
    + injection Hn as ->. rewrite Nat.add_0_r in Hkey.
      destruct key as [j|].
      * destruct (Nat.eqb_spec i j) as [->|_]; [now elim Hkey|].
        destruct (headline_line py w e) as [line|]; [now exists line|discriminate].
      * destruct (headline_line py w e) as [line|]; [now exists line|discriminate].
    + assert (exists more, headline_lines py w key (S i) rest = Ok more) as (more & Hm).
      { destruct (match key with Some j => Nat.eqb i j | None => false end);
          [now exists lines|].
        destruct (headline_line py w e0); [|discriminate]. cbn [bind] in H.
        destruct (headline_lines py w key (S i) rest) as [more|];
          [now exists more|discriminate]. }
      apply (IH (S i) more Hm n e Hn).
      now rewrite Nat.add_succ_comm.
Qed.

Lemma key_line_nonempty py now j k key_line :
  key_line_of py now (Some (j, k)) = Ok key_line ->
  dict_truthy k = true ->
  key_line <> "".
Proof.
  unfold key_line_of. intros H Hk. rewrite Hk in H.
  destruct (headline_text k) as [text|]; [|discriminate]. cbn [bind] in H.
  destruct (method_upper (sentiment_of k)) as [up|]; [|discriminate].
  cbn [bind] in H. injection H as <-.
  destruct (truthy (describe_freshness py now k)); discriminate.
Qed.

Lemma key_line_of_text py now j k key_line :
  key_line_of py now (Some (j, k)) = Ok key_line ->
  dict_truthy k = true ->
  exists text, headline_text k = Ok text.
Proof.
  unfold key_line_of. intros H Hk. rewrite Hk in H.
  destruct (headline_text k) as [text|]; [now exists text|discriminate].
Qed.

Lemma key_line_empty py now key key_line :
  key_line_of py now key = Ok key_line ->
  key_truthy key = false ->
  key_line = "".
Proof.
  unfold key_line_of, key_truthy. intros H Hk.
  destruct key as [[j k]|]; [rewrite Hk in H|]; now injection H.
Qed.

(** What [news_lines] does on a non-empty list that it renders. *)
Lemma news_lines_inv py w e0 rest lines :
  news_lines py w (e0 :: rest) = Ok lines ->
  exists st key_line headlines,
    loop 0 (e0 :: rest) loop_init = Ok st
    /\ key_line_of py (clock w) (key_entry st) = Ok key_line
    /\ headline_lines py w
         (option_map fst (if key_truthy (key_entry st) then key_entry st else None))
         0 (e0 :: rest) = Ok headlines
    /\ List.length lines
       = (1 + (if (key_line =? "")%string then 1 else 2) + List.length headlines)%nat.
Proof.
  unfold news_lines. intros H.
  destruct (summarize_news_sentiment py (clock w) (e0 :: rest)) as [r|] eqn:Hs;
    [|discriminate].
  apply summarize_inv in Hs. destruct Hs as (st & key_line & Hloop & Hkl & ->).
  cbn [bind] in H.
  destruct (headline_lines py w _ 0 (e0 :: rest)) as [headlines|] eqn:Hh;
    [|discriminate].
  cbn [bind] in H. injection H as <-.
  exists st, key_line, headlines.
  split; [exact Hloop|]. split; [exact Hkl|]. split; [exact Hh|].
  destruct (key_line =? "")%string; cbn [app List.length];
    rewrite ?length_app; cbn [List.length]; lia.
Qed.

Lemma news_lines_count py w entries lines :
  news_lines py w entries = Ok lines ->
  entries <> [] ->
  List.length lines = (List.length entries + 2)%nat.
Proof.
  intros H Hne. destruct entries as [|e0 rest]; [now elim Hne|].
  apply news_lines_inv in H.
  destruct H as (st & key_line & headlines & Hloop & Hkl & Hh & ->).
  pose proof (loop_key_member (e0 :: rest) [] loop_init st eq_refl Hloop) as Hinv.
  cbn [app] in Hinv.
  apply headline_lines_length in Hh. rewrite Hh.
  destruct (key_truthy (key_entry st)) eqn:Ht.
  - destruct (key_entry st) as [[j k]|]; [|discriminate].
    destruct Hinv as (Hnth & _). apply nth_error_length in Hnth.
    cbn [key_truthy] in Ht.
    pose proof (key_line_nonempty _ _ _ _ _ Hkl Ht) as Hkne.
    destruct (String.eqb_spec key_line "") as [E|_]; [now elim Hkne|].
    cbn [option_map fst Nat.leb].
    destruct (Nat.ltb_spec j (0 + List.length (e0 :: rest))); [|cbn in *; lia].
    cbn [andb List.length]. lia.
  - rewrite (key_line_empty _ _ _ _ Hkl Ht). cbn. lia.
Qed.

(** The block of a symbol with a snapshot has 18 lines when no news is
    cached for its coin, and 20 lines more than news entries otherwise, when
    the cached entries are pairwise different (so that no dictionary is in
    the list twice, and the test [entry is key_entry_for_summary] of line
    581 holds at the key entry's index only): each entry gives exactly one
    line, the key entry as key headline and the others as headlines, or all
    of them as headlines when there is no key entry. *)
Theorem market_block_line_count py w snaps symbol coin data lines :
  lookup symbol (SYMBOL_TO_COIN (config w)) = Some coin ->
  lookup coin snaps = Some data ->
  NoDup (get_cached_news w coin 5) ->
  market_block py w snaps symbol = Ok lines ->
  List.length lines
  = match get_cached_news w coin 5 with
    | [] => 18%nat
    | _ :: _ => (List.length (get_cached_news w coin 5) + 20)%nat
    end.
Proof.
  intros Hc Hd _ H.
  destruct (market_block_snapshot _ _ _ _ _ _ _ Hc Hd H) as (news & Hn & ->).
  rewrite !length_app. cbn [List.length snapshot_lines app intraday_series_lines
                            long_term_lines].
  destruct (get_cached_news w coin 5) as [|e0 rest] eqn:E.
  - cbn in Hn. injection Hn as <-. reflexivity.
  - apply news_lines_count in Hn; [|discriminate]. rewrite Hn.
    cbn [List.length]. lia.
Qed.

Lemma market_block_line_count_witness :
  match market_block Ref.py Sample.world Sample.market_snapshots "BBCA.JK" with
  | Ok lines => List.length lines
  | Raise _ => 0%nat
  end = 23%nat.
Proof.
  destruct (market_block Ref.py Sample.world Sample.market_snapshots "BBCA.JK")
    as [lines|] eqn:E; [|discriminate].
  refine (market_block_line_count Ref.py Sample.world Sample.market_snapshots
            "BBCA.JK" "BBCA" Sample.snapshot lines eq_refl eq_refl _ E).
  repeat constructor; cbn; intuition discriminate.
Defined.

(** *** How the blocks compose *)

Lemma market_blocks_app py w snaps a : forall b,
  market_blocks py w snaps (a ++ b)
  = (x <- market_blocks py w snaps a ;;
     y <- market_blocks py w snaps b ;;
     Ok (x +++ y)).
Proof.
  induction a as [|s a IH]; intros b; cbn [app market_blocks bind].
  - now rewrite bind_ok.
  - rewrite IH.
    destruct (market_block py w snaps s) as [block|]; [|reflexivity].
    cbn [bind].
    destruct (market_blocks py w snaps a) as [x|]; [|reflexivity].
    cbn [bind].
    destruct (market_blocks py w snaps b) as [y|]; [|reflexivity].
    cbn [bind]. now rewrite <- app_assoc.
Qed.

(** The blocks of the symbols of two lists one after the other are the blocks
    of the first list followed by the blocks of the second. *)
Theorem market_blocks_concatenate py w snaps a b blocks_a blocks_b :
  market_blocks py w snaps a = Ok blocks_a ->
  market_blocks py w snaps b = Ok blocks_b ->
  market_blocks py w snaps (a ++ b) = Ok (blocks_a +++ blocks_b).
Proof. intros Ha Hb. now rewrite market_blocks_app, Ha, Hb. Qed.

Lemma market_blocks_concatenate_witness :
  market_blocks Ref.py Sample.world Sample.market_snapshots
    (["TLKM.JK"; "BBCA.JK"] ++ ["BBCA.JK"])
  = Ok (match market_block Ref.py Sample.world Sample.market_snapshots "BBCA.JK" with
        | Ok block => block +++ block
        | Raise _ => []
        end).
Proof.
  refine (market_blocks_concatenate Ref.py Sample.world Sample.market_snapshots
            ["TLKM.JK"; "BBCA.JK"] ["BBCA.JK"] _ _ _ _);
    vm_compute; reflexivity.
Defined.

(** *** What aborts the document *)

Lemma market_blocks_raise py w snaps symbols symbol err :
  In symbol symbols ->
  market_block py w snaps symbol = Raise err ->
  exists err', market_blocks py w snaps symbols = Raise err'.
Proof.
  intros Hin Hr. induction symbols as [|s rest IH]; [now elim Hin|].
  cbn [market_blocks].
  destruct (market_block py w snaps s) as [block|e] eqn:Hb;
    [|now exists e].
  cbn [bind]. destruct Hin as [->|Hin]; [congruence|].
  destruct (IH Hin) as (err' & ->). now exists err'.
Qed.

Lemma create_trading_prompt_blocks_raise py w st snaps err :
  market_blocks py w snaps (SYMBOLS (config w)) = Raise err ->
  create_trading_prompt py w st snaps = Raise err.
Proof. unfold create_trading_prompt, prompt_lines. now intros ->. Qed.

(** A configured symbol that has no entry in [config.SYMBOL_TO_COIN] aborts
    the composition, whether or not a snapshot exists; the exception is
    [KeyError] when the blocks of the symbols before it are rendered. *)
Theorem unmapped_symbol_aborts py w st snaps pre symbol post :
  SYMBOLS (config w) = (pre ++ symbol :: post)%list ->
  lookup symbol (SYMBOL_TO_COIN (config w)) = None ->
  (exists err, create_trading_prompt py w st snaps = Raise err)
  /\ (forall blocks,
        market_blocks py w snaps pre = Ok blocks ->
        create_trading_prompt py w st snaps = Raise KeyError).
Proof.
  intros Hs Hc.
  assert (market_block py w snaps symbol = Raise KeyError) as Hb
      by (unfold market_block; now rewrite Hc).
  split.
  - destruct (market_blocks_raise py w snaps (SYMBOLS (config w)) symbol KeyError)
      as (err & Hr); [rewrite Hs; apply in_elt|exact Hb|].
    exists err. now apply create_trading_prompt_blocks_raise.
  - intros blocks Hpre. apply create_trading_prompt_blocks_raise.
    rewrite Hs, market_blocks_app, Hpre. cbn [bind market_blocks].
    now rewrite Hb.
Qed.

Lemma unmapped_symbol_aborts_witness :
  create_trading_prompt Ref.py Derived.unmapped_symbol Sample.state
    Sample.market_snapshots = Raise KeyError.
Proof.
  refine (proj2 (unmapped_symbol_aborts Ref.py Derived.unmapped_symbol Sample.state
                   Sample.market_snapshots ["BBCA.JK"] "GOTO.JK" [] _ _) _ _);
    reflexivity.
Defined.

Lemma headline_line_text py w e line :
  headline_line py w e = Ok line -> exists text, headline_text e = Ok text.
Proof.
  unfold headline_line.
  destruct (headline_text e) as [text|]; [now exists text|discriminate].
Qed.

(** A rendered news block has read the text of every entry. *)
Lemma news_lines_texts py w entries lines :
  news_lines py w entries = Ok lines ->
  forall e, In e entries -> exists text, headline_text e = Ok text.
Proof.
  intros H e He. destruct entries as [|e0 rest]; [now elim He|].
  apply news_lines_inv in H.
  destruct H as (st & key_line & headlines & Hloop & Hkl & Hh & _).
  pose proof (loop_key_member (e0 :: rest) [] loop_init st eq_refl Hloop) as Hinv.
  cbn [app] in Hinv.
  apply In_nth_error in He. destruct He as (n & Hn).
  pose proof (headline_lines_rendered _ _ _ _ _ _ Hh n e Hn) as Hr.
  destruct (key_truthy (key_entry st)) eqn:Ht.
  - destruct (key_entry st) as [[j k]|]; [|discriminate].
    cbn [option_map fst] in Hr. cbn [key_truthy] in Ht.
    destruct (Nat.eq_dec j n) as [->|Hjn].
    + destruct Hinv as (Hnth & _). rewrite Hn in Hnth. injection Hnth as ->.
      now apply (key_line_of_text py (clock w) n k key_line).
    + destruct Hr as (line & Hl); [cbn; congruence|].
      now apply (headline_line_text py w e line).
  - destruct Hr as (line & Hl); [discriminate|].
    now apply (headline_line_text py w e line).
Qed.

(** One cached entry whose text is not a string (a title that is [None],
    say), for a configured coin that has a snapshot, aborts the whole
    composition: the block is not degraded, nothing is returned. *)
Theorem ill_typed_headline_aborts py w st snaps symbol coin data e err :
  In symbol (SYMBOLS (config w)) ->
  lookup symbol (SYMBOL_TO_COIN (config w)) = Some coin ->
  lookup coin snaps = Some data ->
  In e (get_cached_news w coin 5) ->
  headline_text e = Raise err ->
  exists err', create_trading_prompt py w st snaps = Raise err'.
Proof.
  intros Hs Hc Hd He Ht.
  destruct (market_block py w snaps symbol) as [lines|err0] eqn:Hb.
  - destruct (market_block_snapshot _ _ _ _ _ _ _ Hc Hd Hb) as (news & Hn & _).
    destruct (news_lines_texts _ _ _ _ Hn e He) as (text & Htext). congruence.
  - destruct (market_blocks_raise py w snaps _ symbol err0 Hs Hb) as (err' & Hr).
    exists err'. now apply create_trading_prompt_blocks_raise.
Qed.

Lemma ill_typed_headline_aborts_witness :
  exists err',
    create_trading_prompt Ref.py
      {| clock := Sample.now; get_last_refresh_time := None;
         get_cached_news := fun _ _ => [Derived.null_title];
         config := Sample.cfg; local_utcoffset := Sample.wib |}
      Sample.state Sample.market_snapshots = Raise err'.
Proof.
  refine (ill_typed_headline_aborts Ref.py _ Sample.state Sample.market_snapshots
            "BBCA.JK" "BBCA" Sample.snapshot Derived.null_title AttributeError
            _ _ _ _ _).
  - now left.
  - reflexivity.
  - reflexivity.
  - now left.
  - reflexivity.
Defined.

Lemma has_char_app c (a b : string) :
  Derived.has_char c (a ++ b) = Derived.has_char c a || Derived.has_char c b.
Proof.
  induction a as [|x a IH]; cbn; [reflexivity|].
  now rewrite IH, orb_assoc.
Qed.

Lemma replace_removes c by_ s :
  Derived.has_char c by_ = false ->
  Derived.has_char c (Str.replace c by_ s) = false.
Proof.
  intros Hby. induction s as [|a s IH]; cbn; [reflexivity|].
  destruct (Ascii.eqb a c) eqn:E.
  - now rewrite has_char_app, Hby, IH.
  - cbn. now rewrite E, IH.
Qed.

Lemma lstrip_has_char c s :
  Derived.has_char c s = false -> Derived.has_char c (Str.lstrip s) = false.
Proof.
  induction s as [|a s IH]; cbn; [reflexivity|].
  intros H. apply orb_false_elim in H. destruct H as (Ha & Hs).
  destruct (Str.is_space a); [now apply IH|].
  cbn. now rewrite Ha, Hs.
Qed.

Lemma rstrip_has_char c s :
  Derived.has_char c s = false -> Derived.has_char c (Str.rstrip s) = false.
Proof.
  induction s as [|a s IH]; cbn; [reflexivity|].
  intros H. apply orb_false_elim in H. destruct H as (Ha & Hs).
  specialize (IH Hs).
  destruct (Str.rstrip s) as [|b r].
  - destruct (Str.is_space a); [reflexivity|]. cbn. now rewrite Ha.
  - cbn in *. now rewrite Ha, IH.
Qed.

(** The text of a headline holds no line feed, whatever the entry holds: a
    summary, snippet or title that spans lines stays on the line of its
    entry. *)
Theorem headline_text_has_no_line_feed e text :
  headline_text e = Ok text ->
  Derived.has_char char_newline text = false.
Proof.
  unfold headline_text.
  destruct (py_or _ _) as [|s|q]; try discriminate.
  intros H. injection H as <-. unfold Str.strip.
  apply rstrip_has_char, lstrip_has_char, replace_removes. reflexivity.
Qed.

Lemma headline_text_has_no_line_feed_witness :
  Derived.has_char char_newline "Profit up twice in a row" = false.
Proof.
  refine (headline_text_has_no_line_feed
            [("summary", VStr (" Profit up" ++ newline ++ "twice" ++ newline
                               ++ "in a row" ++ newline))] _ _).
  reflexivity.
Defined.

(** ** More on the account and position block *)

Lemma position_lines_raise py snaps items coin pos err :
  In (coin, pos) items ->
  position_line py snaps coin pos = Raise err ->
  exists err', position_lines py snaps items = Raise err'.
Proof.
  intros Hin Hr. induction items as [|[c p] rest IH]; [now elim Hin|].
  cbn [position_lines].
  destruct (position_line py snaps c p) as [line|e] eqn:Hl; [|now exists e].
  cbn [bind]. destruct Hin as [E|Hin]; [injection E as -> ->; congruence|].
  destruct (IH Hin) as (err' & ->). now exists err'.
Qed.

(** An open position on a coin whose snapshot holds [None] as price aborts
    the whole composition: no document is returned, whatever the other
    positions and the market blocks are. *)
Theorem unpriced_position_aborts py w st snaps coin pos data :
  In (coin, pos) (positions st) ->
  lookup coin snaps = Some data ->
  price data = None ->
  exists err, create_trading_prompt py w st snaps = Raise err.
Proof.
  intros Hin Hd Hp.
  unfold create_trading_prompt, prompt_lines.
  destruct (market_blocks py w snaps (SYMBOLS (config w))) as [blocks|e];
    [|now exists e].
  cbn [bind]. unfold positions_block.
  assert (position_line py snaps coin pos = Raise TypeError) as Hl.
  { unfold position_line, position_pnl, current_price. now rewrite Hd, Hp. }
  destruct (position_lines_raise py snaps (positions st) coin pos TypeError Hin Hl)
    as (err' & Hr).
  destruct (positions st) as [|p rest]; [now elim Hin|].
  rewrite Hr. now exists err'.
Qed.

Lemma unpriced_position_aborts_witness :
  exists err,
    create_trading_prompt Ref.py Sample.world Sample.state_with_positions
      [("BBCA", Sample.unpriced)] = Raise err.
Proof.
  refine (unpriced_position_aborts Ref.py Sample.world Sample.state_with_positions
            [("BBCA", Sample.unpriced)] "BBCA" Sample.long_position
            Sample.unpriced _ _ _).
  - now left.
  - reflexivity.
  - reflexivity.
Defined.

Lemma position_lines_each py snaps items : forall lines,
  position_lines py snaps items = Ok lines ->
  Forall2 (fun item line =>
             exists current pnl,
               current_price snaps (fst item) (snd item) = Some current
               /\ position_pnl snaps (fst item) (snd item) = Ok pnl
               /\ line = fst item ++ " position data: "
                         ++ json_dumps py
                              (position_payload (fst item) (snd item) current pnl))
          items lines.
Proof.
  induction items as [|[coin pos] rest IH]; cbn [position_lines]; intros lines H.
  - injection H as <-. constructor.
  - destruct (position_line py snaps coin pos) as [line|] eqn:Hl; [|discriminate].
    cbn [bind] in H.
    destruct (position_lines py snaps rest) as [more|]; [|discriminate].
    injection H as <-. constructor; [|now apply IH].
    cbn [fst snd]. unfold position_line in Hl.
    destruct (position_pnl snaps coin pos) as [pnl|]; [|discriminate].
    cbn [bind] in Hl.
    destruct (current_price snaps coin pos) as [current|]; [|discriminate].
    injection Hl as <-. now exists current, pnl.
Qed.

(** With open positions, the block has one line for each position, in the
    order of the mapping, each made of the coin, the label and the JSON
    payload of that position. *)
Theorem positions_block_one_line_each py st snaps lines :
  positions st <> [] ->
  positions_block py st snaps = Ok lines ->
  Forall2 (fun item line =>
             exists current pnl,
               current_price snaps (fst item) (snd item) = Some current
               /\ position_pnl snaps (fst item) (snd item) = Ok pnl
               /\ line = fst item ++ " position data: "
                         ++ json_dumps py
                              (position_payload (fst item) (snd item) current pnl))
          (positions st) lines.
Proof.
  unfold positions_block. intros Hne H.
  destruct (positions st) as [|p rest] eqn:E; [now elim Hne|].
  now apply position_lines_each.
Qed.

Lemma positions_block_one_line_each_witness :
  exists lines,
    positions_block Ref.py Sample.state_with_positions Sample.market_snapshots
    = Ok lines
    /\ List.length lines = 2%nat.
Proof.
  eexists. split; [reflexivity|].
  pose proof (positions_block_one_line_each Ref.py Sample.state_with_positions
                Sample.market_snapshots _ ltac:(discriminate) eq_refl) as H.
  apply Forall2_length in H. symmetry. exact H.
Defined.

(** A long and a non-long position with the same entry price and quantity
    have opposite PnL at the same current price. *)
Theorem long_and_short_pnl_are_opposite current long short a b :
  side long = "long" ->
  side short <> "long" ->
  entry_price short = entry_price long ->
  quantity short = quantity long ->
  unrealized_pnl (Some current) long = Ok a ->
  unrealized_pnl (Some current) short = Ok b ->
  (a + b == 0)%Q.
Proof.
  intros Hl Hs He Hq. cbn [unrealized_pnl]. rewrite Hl, He, Hq.
  destruct (String.eqb_spec (side short) "long") as [E|_]; [now elim Hs|].
  cbn. intros Ha Hb. injection Ha as <-. injection Hb as <-. ring.
Qed.

Lemma long_and_short_pnl_are_opposite_witness : (500 + -500 == 0)%Q.
Proof.
  refine (long_and_short_pnl_are_opposite 1050%Q Sample.long_position
            {| side := "short"; quantity := 10; entry_price := 1000;
               profit_target := 900; stop_loss := 1050;
               invalidation_condition := ""; confidence := 0.5;
               risk_idr := None; risk_usd := None; fees_paid := None |}%Q
            500%Q (-500)%Q _ _ _ _ _ _);
    try reflexivity. discriminate.
Defined.

(** ** More on the preamble *)

(** A refresh time that does not parse is shown as the cache gave it, with
    its "Z" and its blanks: the heading has a fourth line made of the
    label and the original string. *)
Theorem unparsed_refresh_time_is_kept py w s :
  get_last_refresh_time w = Some s ->
  s <> "" ->
  fromisoformat py (Str.replace char_Z "+00:00" s) = None ->
  market_heading_lines py w
  = [ "Timeframe note: Intraday series use " ++ Str.of_int (interval_minutes w)
        ++ "-minute intervals unless a different interval is explicitly mentioned.";
      separator;
      "CURRENT MARKET STATE FOR ALL COINS";
      "Latest news cache refresh: " ++ s ].
Proof.
  intros Hr Hne Hp. unfold market_heading_lines, news_refresh_str.
  rewrite Hr.
  destruct (String.eqb_spec s "") as [E|_]; [now elim Hne|].
  rewrite Hp.
  destruct (String.eqb_spec s "") as [E|_]; [now elim Hne|].
  reflexivity.
Qed.

Lemma unparsed_refresh_time_is_kept_witness :
  nth 3 (market_heading_lines Ref.py Derived.free_text_refresh) ""
  = "Latest news cache refresh: Zero hour, Monday".
Proof.
  rewrite (unparsed_refresh_time_is_kept Ref.py Derived.free_text_refresh
             "Zero hour, Monday" eq_refl ltac:(discriminate) eq_refl).
  reflexivity.
Defined.

(** The elapsed minutes are the floor of the elapsed time and are not
    clamped: they are negative exactly when the start time lies after the
    clock reading, and below them lies less than one minute. *)
Theorem elapsed_minutes_are_floored w st :
  (minutes_running w st < 0 <-> clock w < start_time st)
  /\ 60000000 * minutes_running w st <= clock w - start_time st
     < 60000000 * minutes_running w st + 60000000.
Proof. unfold minutes_running. split; [split; intros H|]; div_lia. Qed.
